(** * mip-core: build helpers, symbol collection, manifests and the
    existence check, shallowly embedded.

    Sources: [mip_build_helpers/build_helpers.py],
    [mip_build_helpers/create_load_and_unload_scripts.py],
    [scripts/prepare_packages.py], [scripts/build_and_upload_packages.py]. *)

From Stdlib Require Import Ascii String List Sorting.Sorted Sorting.Permutation ZArith Lia.
From stdpp Require Import base gmap strings list.

Import ListNotations.
Set Warnings "-register-all".
Local Open Scope string_scope.

(* ------------------------------------------------------------------ *)
(** ** Python strings *)

(** Python's [str.endswith], [str.startswith] and slicing, over the
    characters of a [string]. *)
Definition chars (s : string) : list ascii := list_ascii_of_string s.

Definition endswith (s suf : string) : bool :=
  let l := chars s in
  let k := chars suf in
  (List.length k <=? List.length l)%nat
  && bool_decide (skipn (List.length l - List.length k) l = k).

Definition startswith (s pre : string) : bool :=
  let l := chars s in
  let k := chars pre in
  bool_decide (firstn (List.length k) l = k).

(** [s[:-n]]; note that [s[:-0]] is [s[:0]], the empty string. *)
Definition slice_drop_last (n : nat) (s : string) : string :=
  if (n =? 0)%nat then ""
  else string_of_list_ascii (firstn (List.length (chars s) - n) (chars s)).

(** [s[1:]] *)
Definition slice_from1 (s : string) : string :=
  string_of_list_ascii (skipn 1 (chars s)).

(** Python compares strings by code points, lexicographically. *)
Fixpoint chars_leb (a b : list ascii) : bool :=
  match a, b with
  | [], _ => true
  | _ :: _, [] => false
  | x :: a', y :: b' =>
      let nx := nat_of_ascii x in
      let ny := nat_of_ascii y in
      if (nx <? ny)%nat then true
      else if (ny <? nx)%nat then false
      else chars_leb a' b'
  end.

Definition str_leb (a b : string) : bool := chars_leb (chars a) (chars b).

(** [sorted(xs, key=key)]: a stable insertion sort. *)
Fixpoint insert_by {A : Type} (key : A -> string) (x : A) (l : list A) : list A :=
  match l with
  | [] => [x]
  | y :: l' => if str_leb (key x) (key y) then x :: y :: l'
               else y :: insert_by key x l'
  end.

Fixpoint sort_by {A : Type} (key : A -> string) (l : list A) : list A :=
  match l with
  | [] => []
  | x :: l' => insert_by key x (sort_by key l')
  end.

(** [sorted(xs)] on a list of strings. *)
Definition sorted (l : list string) : list string := sort_by (fun s => s) l.

(* ------------------------------------------------------------------ *)
(** ** Python exceptions and results *)

Inductive exc :=
| Timeout                 (* requests.exceptions.Timeout *)
| ConnectionError         (* requests.exceptions.ConnectionError *)
| HTTPError               (* raised by response.raise_for_status() *)
| JSONDecodeError         (* requests.exceptions.JSONDecodeError *)
| AttributeError
| KeyError
| ValueError
| NotADirectoryError
| FileNotFoundError
| BadZipFile
| FileExistsError
| IsADirectoryError
| EOFError.

(** The subclasses of [requests.RequestException]. *)
Definition is_request_exception (e : exc) : bool :=
  match e with
  | Timeout | ConnectionError | HTTPError | JSONDecodeError => true
  | _ => false
  end.

Inductive result (A : Type) :=
| Ok (a : A)
| Raise (e : exc).
Arguments Ok {A} a.
Arguments Raise {A} e.

(* ------------------------------------------------------------------ *)
(** ** The naming-convention decoder (build_helpers._extract_symbol_name) *)

Definition _extract_symbol_name (item_name : string) : string :=
  (* Remove .m extension if present *)
  let item_name := if endswith item_name ".m" then slice_drop_last 2 item_name
                   else item_name in
  (* Remove + or @ prefix if present *)
  if startswith item_name "+" || startswith item_name "@" then slice_from1 item_name
  else item_name.

Definition is_pkg_or_class (name : string) : bool :=
  startswith name "+" || startswith name "@".

(* ------------------------------------------------------------------ *)
(** ** Filesystem *)

(** A directory entry: a regular file or a directory with its entries,
    in the order [os.listdir] / [os.scandir] return them. *)
Inductive node :=
| File (name : string)
| Dir (name : string) (children : list node).

Definition node_name (n : node) : string :=
  match n with File s => s | Dir s _ => s end.

(** What a path names: nothing, a regular file, or a directory. *)
Inductive path_state :=
| Missing
| RegularFile
| Directory (children : list node).

Definition file_names (ch : list node) : list string :=
  flat_map (fun n => match n with File s => [s] | Dir _ _ => [] end) ch.

Definition dir_names (ch : list node) : list string :=
  flat_map (fun n => match n with File _ => [] | Dir s _ => [s] end) ch.

Definition excluded (exclude_dirs : list string) (d : string) : bool :=
  bool_decide (d ∈ exclude_dirs).
Arguments excluded : simpl never.

(* ------------------------------------------------------------------ *)
(** ** Symbol collectors *)

(** build_helpers.collect_exposed_symbols_with_extensions (also
    prepare_packages.collect_exposed_symbols, which has the same body). *)
Definition collect_exposed_symbols_with_extensions
    (package_dir : path_state) (extensions : option (list string))
    : result (list string) :=
  let extensions := match extensions with None => [".m"] | Some e => e end in
  match package_dir with
  | Missing => Ok []
  | RegularFile => Raise NotADirectoryError   (* os.listdir on a file *)
  | Directory items =>
      Ok (flat_map (fun item =>
            match item with
            | File s =>
                match List.find (fun ext => endswith s ext) extensions with
                | Some ext => [slice_drop_last (String.length ext) s]
                | None => []
                end
            | Dir s _ => if is_pkg_or_class s then [slice_from1 s] else []
            end) (sort_by node_name items))
  end.

(** build_helpers.collect_exposed_symbols_top_level; [base_path] is
    accepted but not used by the code. *)
Definition collect_exposed_symbols_top_level
    (package_dir : path_state) (base_path : string) : result (list string) :=
  match package_dir with
  | Missing => Ok []
  | RegularFile => Raise NotADirectoryError
  | Directory items =>
      Ok (flat_map (fun item =>
            match item with
            | File s => if endswith s ".m" then [_extract_symbol_name s] else []
            | Dir s _ => if is_pkg_or_class s then [_extract_symbol_name s] else []
            end) (sort_by node_name items))
  end.

(** The symbols appended for one step [(root, dirs, files)] of
    [os.walk], after [dirs[:]] has been pruned. *)
Definition level_symbols (exclude_dirs : list string) (ch : list node) : list string :=
  let files := file_names ch in
  let dirs := List.filter (fun d => negb (excluded exclude_dirs d)) (dir_names ch) in
  (map _extract_symbol_name (List.filter (fun f => endswith f ".m") (sorted files))
  ++ map _extract_symbol_name (List.filter is_pkg_or_class (sorted dirs)))%list.

(** [os.walk] top-down with the pruning of [dirs[:]]: one trace entry
    [(relative path, symbols appended)] per visited directory, in visiting
    order. A directory is descended into only if its name was kept. *)
Fixpoint walk_node (exclude_dirs : list string) (parent : list string) (n : node)
    : list (list string * list string) :=
  match n with
  | File _ => []
  | Dir d ch =>
      let p := (parent ++ [d])%list in
      (p, level_symbols exclude_dirs ch)
      :: concat (map (fun c => if excluded exclude_dirs (node_name c) then []
                               else walk_node exclude_dirs p c) ch)
  end.

Definition walk (exclude_dirs : list string) (ch : list node)
    : list (list string * list string) :=
  ([], level_symbols exclude_dirs ch)
  :: concat (map (fun c => if excluded exclude_dirs (node_name c) then []
                           else walk_node exclude_dirs [] c) ch).

(** build_helpers.collect_exposed_symbols_recursive. [os.walk] on a
    regular file yields nothing (the listing error is ignored). *)
Definition collect_exposed_symbols_recursive
    (package_dir : path_state) (base_path : string)
    (exclude_dirs : option (list string)) : result (list string) :=
  match package_dir with
  | Missing => Ok []
  | RegularFile => Ok (sorted [])
  | Directory ch =>
      let exclude_dirs := match exclude_dirs with None => [] | Some e => e end in
      Ok (sorted (concat (map snd (walk exclude_dirs ch))))
  end.

(** build_helpers.collect_exposed_symbols_multiple_paths: [zip] is
    [combine] (it stops at the shorter list). *)
Fixpoint extend_top_level (pairs : list (path_state * string)) : result (list string) :=
  match pairs with
  | [] => Ok []
  | (package_dir, base_path) :: rest =>
      match collect_exposed_symbols_top_level package_dir base_path with
      | Raise e => Raise e
      | Ok s => match extend_top_level rest with
                | Raise e => Raise e
                | Ok r => Ok (s ++ r)%list
                end
      end
  end.

Definition collect_exposed_symbols_multiple_paths
    (package_dirs : list path_state) (base_paths : list string) : result (list string) :=
  match extend_top_level (combine package_dirs base_paths) with
  | Raise e => Raise e
  | Ok symbols => Ok (sorted symbols)
  end.

Example decode_ex1 : _extract_symbol_name "filename.m" = "filename".
Proof. reflexivity. Qed.
Example decode_ex2 : _extract_symbol_name "+packagename" = "packagename".
Proof. reflexivity. Qed.
Example decode_ex3 : _extract_symbol_name "+pkg.m" = "pkg".
Proof. reflexivity. Qed.
Example rec_ex :
  collect_exposed_symbols_recursive
    (Directory [File "a.m"; Dir "test" [File "b.m"]; Dir "sub" [File "c.m"]]) "."
    (Some ["test"]) = Ok ["a"; "c"].
Proof. reflexivity. Qed.

(** The entries the top-level collector keeps. *)
Definition top_level_qualifies (item : node) : bool :=
  match item with
  | File s => endswith s ".m"
  | Dir s _ => is_pkg_or_class s
  end.

(** A tree with every directory whose name is in [exclude_dirs] removed,
    together with everything beneath it, at every depth below the root
    (files are kept whatever their names). *)
Definition excluded_dir (exclude_dirs : list string) (n : node) : bool :=
  match n with File _ => false | Dir d _ => excluded exclude_dirs d end.

Fixpoint prune_node (exclude_dirs : list string) (n : node) : node :=
  match n with
  | File s => File s
  | Dir d ch =>
      Dir d ((fix go (l : list node) : list node :=
                match l with
                | [] => []
                | c :: l' => if excluded_dir exclude_dirs c then go l'
                             else prune_node exclude_dirs c :: go l'
                end) ch)
  end.

Definition prune_children (exclude_dirs : list string) (ch : list node) : list node :=
  map (prune_node exclude_dirs) (List.filter (fun c => negb (excluded_dir exclude_dirs c)) ch).

(* ------------------------------------------------------------------ *)
(** ** Python/JSON values *)

(** The values the compared metadata fields hold (JSON from the bucket,
    YAML from [prepare.yaml], attributes of a [Package] object): [None],
    booleans, integers, strings and lists. Floats and nested objects are
    not modelled. *)
Inductive jvalue :=
| JNull
| JBool (b : bool)
| JInt (z : Z)
| JStr (s : string)
| JList (l : list jvalue).

(** Python [==] on these values ([True == 1] holds in Python). *)
Fixpoint py_eq (a b : jvalue) : bool :=
  match a, b with
  | JNull, JNull => true
  | JBool x, JBool y => Bool.eqb x y
  | JBool x, JInt z => Z.eqb (Z.b2z x) z
  | JInt z, JBool y => Z.eqb z (Z.b2z y)
  | JInt x, JInt y => Z.eqb x y
  | JStr x, JStr y => String.eqb x y
  | JList xs, JList ys =>
      (fix go (xs ys : list jvalue) : bool :=
         match xs, ys with
         | [], [] => true
         | x :: xs', y :: ys' => py_eq x y && go xs' ys'
         | _, _ => false
         end) xs ys
  | _, _ => false
  end.

(** [d.get(k)] and [d.get(k, default)] on a dict. *)
Definition py_get (d : gmap string jvalue) (k : string) : jvalue :=
  default JNull (d !! k).

Definition py_get_default (d : gmap string jvalue) (k : string) (dflt : jvalue) : jvalue :=
  default dflt (d !! k).

(** The result type as a monad, for code that can raise. *)
Global Instance result_ret : MRet result := fun A x => Ok x.
Global Instance result_bind : MBind result :=
  fun A B k r => match r with Ok x => k x | Raise e => Raise e end.

(** [d[k]]: [KeyError] when the key is absent. *)
Definition py_index (d : gmap string jvalue) (k : string) : result jvalue :=
  match d !! k with Some v => Ok v | None => Raise KeyError end.

(* ------------------------------------------------------------------ *)
(** ** The existence check (_check_existing_package) *)

(** A parsed JSON document: an object, or any other JSON value. *)
Inductive json_doc :=
| DocObject (m : gmap string jvalue)
| DocOther (v : jvalue).

Inductive http_body :=
| BodyNotJSON
| BodyJSON (d : json_doc).

(** The outcome of [requests.get(url, timeout=10)]. *)
Inductive probe :=
| ProbeRaises (e : exc)
| ProbeResponse (status_code : Z) (body : http_body).

(** Whether [response.raise_for_status()] raises [HTTPError]. *)
Definition raise_for_status (status_code : Z) : bool :=
  (400 <=? status_code)%Z && (status_code <? 600)%Z.

(** The body of the [try] block: probe, status checks, [response.json()],
    then the field comparison [compare] on the parsed object. *)
Definition check_try_body (pr : probe) (compare : gmap string jvalue -> result bool)
    : result bool :=
  match pr with
  | ProbeRaises e => Raise e
  | ProbeResponse status_code body =>
      if Z.eqb status_code 404 then Ok false
      else if raise_for_status status_code then Raise HTTPError
      else match body with
           | BodyNotJSON => Raise JSONDecodeError
           | BodyJSON (DocOther _) => Raise AttributeError   (* .get on a non-dict *)
           | BodyJSON (DocObject existing_metadata) => compare existing_metadata
           end
  end.

(** [except requests.RequestException: return False] *)
Definition catch_request_exception (r : result bool) : result bool :=
  match r with
  | Raise e => if is_request_exception e then Ok false else Raise e
  | Ok b => Ok b
  end.

Definition prepare_fields_to_compare : list string :=
  ["name"; "description"; "version"; "release_number";
   "dependencies"; "homepage"; "repository"; "license"].

(** The loop of PackagePreparer._check_existing_package:
    [existing_metadata.get(field) != package_data.get(field)]. *)
Fixpoint compare_get (existing_metadata package_data : gmap string jvalue)
    (fields : list string) : result bool :=
  match fields with
  | [] => Ok true
  | field :: rest =>
      if negb (py_eq (py_get existing_metadata field) (py_get package_data field))
      then Ok false
      else compare_get existing_metadata package_data rest
  end.

(** scripts/prepare_packages.py, PackagePreparer._check_existing_package;
    [package_data] is the [prepare.yaml] dict. *)
Definition PackagePreparer_check_existing_package (pr : probe)
    (package_data : gmap string jvalue) : result bool :=
  catch_request_exception
    (check_try_body pr (fun m => compare_get m package_data prepare_fields_to_compare)).

Definition builder_fields_to_compare : list string :=
  ["name"; "description"; "version"; "build_number";
   "dependencies"; "homepage"; "repository"].

(** The loop of PackageBuilder._check_existing_package:
    [existing_metadata.get(field) != getattr(package, field)]; [getattr]
    raises [AttributeError] for an attribute the object does not have. *)
Fixpoint compare_getattr (existing_metadata package : gmap string jvalue)
    (fields : list string) : result bool :=
  match fields with
  | [] => Ok true
  | field :: rest =>
      match package !! field with
      | None => Raise AttributeError
      | Some v =>
          if negb (py_eq (py_get existing_metadata field) v) then Ok false
          else compare_getattr existing_metadata package rest
      end
  end.

(** scripts/build_and_upload_packages.py,
    PackageBuilder._check_existing_package; [package] is the attribute
    dictionary of the [Package] instance. *)
Definition PackageBuilder_check_existing_package (pr : probe)
    (package : gmap string jvalue) : result bool :=
  catch_request_exception
    (check_try_body pr (fun m => compare_getattr m package builder_fields_to_compare)).

(* ------------------------------------------------------------------ *)
(** ** Manifest writers *)

(** build_helpers.create_mip_json: the arguments are Python values,
    [JNull] for [None] (their default). The result is the path and the
    object [json.dump] writes there (keys only; the key order of the
    text is not modelled). *)
Definition create_mip_json (mip_json_path : string)
    (package_name dependencies exposed_symbols version : jvalue)
    : string * gmap string jvalue :=
  let dependencies := match dependencies with JNull => JList [] | v => v end in
  let exposed_symbols := match exposed_symbols with JNull => JList [] | v => v end in
  let mip_config : gmap string jvalue :=
    <["exposed_symbols" := exposed_symbols]> (<["dependencies" := dependencies]> ∅) in
  (* Add package name if provided *)
  let mip_config := match package_name with
                    | JNull => mip_config
                    | v => <["package" := v]> mip_config
                    end in
  (* Add version if provided *)
  let mip_config := match version with
                    | JNull => mip_config
                    | v => <["version" := v]> mip_config
                    end in
  (mip_json_path, mip_config).

Definition PackagePreparer_base_url : string :=
  "https://mip-packages.neurosift.app/core/packages".

(** scripts/prepare_packages.py, PackagePreparer._create_mip_json. The
    dict literal's entries are evaluated in order, so the first missing
    required key raises [KeyError]. [timestamp] stands for
    [datetime.utcnow().isoformat()] and [prepare_duration] for
    [round(prepare_duration, 2)]. *)
Definition PackagePreparer_create_mip_json (yaml_data build : gmap string jvalue)
    (exposed_symbols : list string) (timestamp : string) (prepare_duration : jvalue)
    (mhl_filename : string) : result (gmap string jvalue) :=
  name ← py_index yaml_data "name";
  description ← py_index yaml_data "description";
  version ← py_index yaml_data "version";
  release_number ← py_index yaml_data "release_number";
  matlab_tag ← py_index build "matlab_tag";
  abi_tag ← py_index build "abi_tag";
  platform_tag ← py_index build "platform_tag";
  mret (list_to_map
    [("name", name);
     ("description", description);
     ("version", version);
     ("release_number", release_number);
     ("dependencies", py_get_default yaml_data "dependencies" (JList []));
     ("homepage", py_get_default yaml_data "homepage" (JStr ""));
     ("repository", py_get_default yaml_data "repository" (JStr ""));
     ("license", py_get_default yaml_data "license" (JStr ""));
     ("matlab_tag", matlab_tag);
     ("abi_tag", abi_tag);
     ("platform_tag", platform_tag);
     ("usage_examples", py_get_default yaml_data "usage_examples" (JList []));
     ("exposed_symbols", JList (map JStr exposed_symbols));
     ("timestamp", JStr (timestamp ++ "Z"));
     ("prepare_duration", prepare_duration);
     ("compile_duration", JInt 0);
     ("mhl_url", JStr (PackagePreparer_base_url ++ "/" ++ mhl_filename))] : gmap string jvalue).

(* ------------------------------------------------------------------ *)
(** ** Zip download (download_and_extract_zip) *)

(** What the downloaded bytes are: a zip archive with its members (name
    as stored in the archive, and contents), or bytes [zipfile] rejects.
    The members of a [ValidZip] are stored (uncompressed) and readable
    (no CRC error): their contents are their bytes in the archive. *)
Inductive archive :=
| ValidZip (members : list (string * string))
| CorruptZip.

(** An entry of the file system: a directory or a regular file. *)
Inductive blob :=
| BDir
| BArchive (a : archive)
| BText (contents : string).

Inductive http_response :=
| HttpRaises (e : exc)
| HttpResponse (status_code : Z) (content : archive).

(** The file system, keyed by normalised paths relative to the working
    directory, as lists of components ([.] is [[]], [a/b] is
    [["a"; "b"]]). The working directory itself is a directory. A
    well-formed map has a directory at every proper prefix of a key; the
    operations below keep it so. *)
Notation fsmap := (gmap (list string) blob).

(** [s.split('/')] *)
Fixpoint split_slash_chars (l : list ascii) : list (list ascii) :=
  match l with
  | [] => [[]]
  | c :: rest =>
      let parts := split_slash_chars rest in
      if Ascii.eqb c "/"%char then [] :: parts
      else match parts with
           | p :: ps => (c :: p) :: ps
           | [] => [[c]]
           end
  end.

Definition str_split_slash (s : string) : list string :=
  map string_of_list_ascii (split_slash_chars (chars s)).

(** [os.path.exists] and [os.path.isdir]. *)
Definition path_exists (p : list string) (fs : fsmap) : bool :=
  match p with
  | [] => true
  | _ => bool_decide (is_Some (fs !! p))
  end.

Definition path_isdir (p : list string) (fs : fsmap) : bool :=
  match p with
  | [] => true
  | _ => match fs !! p with Some BDir => true | _ => false end
  end.

(** Resolution of the directories [pre ++ comps] one component at a
    time: a missing one gives [ENOENT], a regular file [ENOTDIR]. *)
Fixpoint dir_walk (fs : fsmap) (pre comps : list string) : option exc :=
  match comps with
  | [] => None
  | c :: rest =>
      let q := (pre ++ [c])%list in
      match fs !! q with
      | Some BDir => dir_walk fs q rest
      | Some _ => Some NotADirectoryError
      | None => Some FileNotFoundError
      end
  end.

(** The error, if any, of resolving the parent directory of [p]. *)
Definition parent_error (fs : fsmap) (p : list string) : option exc :=
  dir_walk fs [] (removelast p).

(** [os.mkdir(p)] *)
Definition os_mkdir (p : list string) (fs : fsmap) : fsmap * option exc :=
  match parent_error fs p with
  | Some e => (fs, Some e)
  | None => if path_exists p fs then (fs, Some FileExistsError) else (<[p := BDir]> fs, None)
  end.

(** [os.makedirs(name)] (with [exist_ok=False]) on the reversed path:
    [head, tail = path.split(name)]; if [head] is not empty and does not
    exist, [makedirs(head)] (ignoring [FileExistsError]); then
    [mkdir(name)]. The directories made before an error stay. *)
Fixpoint os_makedirs_rev (rname : list string) (fs : fsmap) : fsmap * option exc :=
  match rname with
  | [] => os_mkdir [] fs
  | _ :: rhead =>
      let head := rev rhead in
      let '(fs, err) :=
        if negb (bool_decide (head = [])) && negb (path_exists head fs) then
          match os_makedirs_rev rhead fs with
          | (fs, Some FileExistsError) => (fs, None)
          | r => r
          end
        else (fs, None) in
      match err with
      | Some e => (fs, Some e)
      | None => os_mkdir (rev rname) fs
      end
  end.

Definition os_makedirs (name : list string) (fs : fsmap) : fsmap * option exc :=
  os_makedirs_rev (rev name) fs.

(** [open(p, 'wb')] followed by a write of [b]: creates or truncates a
    regular file. *)
Definition open_write (p : list string) (b : blob) (fs : fsmap) : fsmap * option exc :=
  match p with
  | [] => (fs, Some IsADirectoryError)
  | _ =>
      match parent_error fs p with
      | Some e => (fs, Some e)
      | None =>
          match fs !! p with
          | Some BDir => (fs, Some IsADirectoryError)
          | _ => (<[p := b]> fs, None)
          end
      end
  end.

(** [os.remove(p)] *)
Definition os_remove (p : list string) (fs : fsmap) : fsmap * result unit :=
  match parent_error fs p with
  | Some e => (fs, Raise e)
  | None =>
      match fs !! p with
      | None => (fs, Raise FileNotFoundError)
      | Some BDir => (fs, Raise IsADirectoryError)
      | Some _ => (delete p fs, Ok tt)
      end
  end.

(** zipfile's clean-up of a member name: split at ['/'] and drop the
    components [''], ['.'] and ['..'] (absolute names become relative,
    and no member leaves the target directory). *)
Definition invalid_path_parts : list string := [""; "."; ".."].

Definition arcname_parts (filename : string) : list string :=
  List.filter (fun x => negb (bool_decide (x ∈ invalid_path_parts))) (str_split_slash filename).

(** [ZipFile._extract_member(member, targetpath)] on POSIX, for the
    archive read from the file [zip_filename]:
    [targetpath = normpath(join(targetpath, arcname))]; create the
    missing upper directories; a directory member ([filename] ending in
    ['/']) is made with [mkdir] unless it is a directory already; any
    other member is copied from the archive into
    [open(targetpath, 'wb')]. When [targetpath] is the archive file
    itself, that [open] truncates it before the member's bytes are read,
    and reading a non-empty member then raises [EOFError]. *)
Definition _extract_member (zip_filename : list string) (member : string * string)
    (targetpath : list string) (fs : fsmap) : fsmap * option exc :=
  let '(filename, data) := member in
  let targetpath := (targetpath ++ arcname_parts filename)%list in
  let upperdirs := removelast targetpath in
  let '(fs, err) :=
    if negb (bool_decide (upperdirs = [])) && negb (path_exists upperdirs fs)
    then os_makedirs upperdirs fs else (fs, None) in
  match err with
  | Some e => (fs, Some e)
  | None =>
      if endswith filename "/" then
        if path_isdir targetpath fs then (fs, None) else os_mkdir targetpath fs
      else if bool_decide (targetpath = zip_filename) && negb (String.eqb data "") then
        match open_write targetpath (BText "") fs with
        | (fs, Some e) => (fs, Some e)
        | (fs, None) => (fs, Some EOFError)
        end
      else open_write targetpath (BText data) fs
  end.

(** [zip_ref.extractall(path)], [zip_ref] reading [zip_filename]: the
    members in order, stopping at the first error (what was extracted
    before it stays). [path] is the normalised component list of
    [extract_dir]. *)
Fixpoint extractall (zip_filename : list string) (members : list (string * string))
    (path : list string) (fs : fsmap) : fsmap * option exc :=
  match members with
  | [] => (fs, None)
  | member :: rest =>
      match _extract_member zip_filename member path fs with
      | (fs, Some e) => (fs, Some e)
      | (fs, None) => extractall zip_filename rest path fs
      end
  end.

(** build_helpers.download_and_extract_zip (prepare_packages has the same
    body, with a timeout on the request): the file system before and
    after, and the outcome. [extract_dir] is given by its normalised
    component list ([.], the default, is [[]]). *)
Definition download_and_extract_zip (response : http_response) (extract_dir : list string)
    (fs : fsmap) : fsmap * result unit :=
  let download_file := ["temp_download.zip"] in
  match response with
  | HttpRaises e => (fs, Raise e)
  | HttpResponse status_code content =>
      if raise_for_status status_code then (fs, Raise HTTPError) else
      match open_write download_file (BArchive content) fs with
      | (fs, Some e) => (fs, Raise e)
      | (fs, None) =>
          match content with
          | CorruptZip => (fs, Raise BadZipFile)   (* zipfile.ZipFile(download_file) *)
          | ValidZip members =>
              match extractall download_file members extract_dir fs with
              | (fs, Some e) => (fs, Raise e)
              | (fs, None) =>
                  (* Clean up the downloaded file *)
                  os_remove download_file fs
              end
          end
      end
  end.

(* ------------------------------------------------------------------ *)
(** ** Load and unload scripts (create_load_and_unload_scripts) *)

(** The MATLAB statements the two scripts consist of. *)
Inductive mexpr :=
| EOwnDir (package_name : string)   (* fullfile(fileparts(mfilename('fullpath')), 'p') *)
| EFullfile (var sub : string).     (* fullfile(var, 'sub') *)

Inductive mstmt :=
| SComment (text : string)
| SAssign (var : string) (e : mexpr)
| SAddpath (var : string)
| SRmpath (var : string).

Definition render_expr (e : mexpr) : string :=
  match e with
  | EOwnDir p => "fullfile(fileparts(mfilename('fullpath')), '" ++ p ++ "')"
  | EFullfile v sub => "fullfile(" ++ v ++ ", '" ++ sub ++ "')"
  end.

Definition render_stmt (st : mstmt) : string :=
  match st with
  | SComment t => "% " ++ t
  | SAssign v e => v ++ " = " ++ render_expr e ++ ";"
  | SAddpath v => "addpath(" ++ v ++ ");"
  | SRmpath v => "rmpath(" ++ v ++ ");"
  end.

(** [os.walk(package_dir)]: the relative paths of every directory below
    the root, top-down, as [rel_root] strings. *)
Definition join_path (parts : list string) : string :=
  match parts with
  | [] => "."
  | p :: rest => fold_left (fun acc q => acc ++ "/" ++ q) rest p
  end.

Definition all_subdirs (package_dir : path_state) : list string :=
  match package_dir with
  | Directory ch => map (fun x => join_path x.1) (tail (walk [] ch))
  | _ => []
  end.

(** [if subdirs:] *)
Definition truthy (subdirs : option (list string)) : bool :=
  match subdirs with Some (_ :: _) => true | _ => false end.

Definition subdir_list (subdirs : option (list string)) : list string :=
  match subdirs with Some l => l | None => [] end.

Definition load_script (package_name : string) (subdirs : option (list string)) : list mstmt :=
  let main := package_name ++ "_path" in
  [SComment ("Add " ++ package_name ++ " to the MATLAB path");
   SAssign main (EOwnDir package_name);
   SAddpath main]
  ++ (if truthy subdirs then
        flat_map (fun subdir =>
          [SComment ("Add " ++ package_name ++ "/" ++ subdir ++ " to the path");
           SAssign (subdir ++ "_path") (EFullfile main subdir);
           SAddpath (subdir ++ "_path")]) (subdir_list subdirs)
      else []).

Definition unload_script (package_name : string) (subdirs : option (list string)) : list mstmt :=
  let main := package_name ++ "_path" in
  [SComment ("Remove " ++ package_name ++ " from the MATLAB path")]
  ++ (if truthy subdirs then
        SAssign main (EOwnDir package_name)
        :: flat_map (fun subdir =>
             [SComment ("Remove " ++ package_name ++ "/" ++ subdir ++ " from the path");
              SAssign (subdir ++ "_path") (EFullfile main subdir);
              SRmpath (subdir ++ "_path")]) (rev (subdir_list subdirs))
      else [SAssign main (EOwnDir package_name)])
  ++ [SRmpath main].

(** create_load_and_unload_scripts.create_load_and_unload_scripts: the
    statements written to [load_package.m] and [unload_package.m].
    [package_dir] is the state of [mhl_dir/package_name]. *)
Definition create_load_and_unload_scripts (package_dir : path_state)
    (package_name : string) (subdirs : option (list string)) (add_all_subdirs : bool)
    : result (list mstmt * list mstmt) :=
  subdirs ← (if add_all_subdirs then
               match subdirs with
               | Some _ => Raise ValueError
               | None => Ok (Some (all_subdirs package_dir))
               end
             else Ok subdirs);
  mret (load_script package_name subdirs, unload_script package_name subdirs).

(** Running a script: MATLAB variables hold paths (relative to the
    script's directory); the effect is the sequence of [addpath] and
    [rmpath] calls with the path each receives. *)
Inductive path_op :=
| PAdd (path : string)
| PRm (path : string).

Definition eval_expr (env : gmap string string) (e : mexpr) : option string :=
  match e with
  | EOwnDir p => Some p
  | EFullfile v sub => base ← env !! v; Some (base ++ "/" ++ sub)
  end.

Fixpoint run_script (env : gmap string string) (stmts : list mstmt) : option (list path_op) :=
  match stmts with
  | [] => Some []
  | SComment _ :: rest => run_script env rest
  | SAssign v e :: rest =>
      p ← eval_expr env e; run_script (<[v := p]> env) rest
  | SAddpath v :: rest =>
      p ← env !! v; ops ← run_script env rest; Some (PAdd p :: ops)
  | SRmpath v :: rest =>
      p ← env !! v; ops ← run_script env rest; Some (PRm p :: ops)
  end.

(* ------------------------------------------------------------------ *)
(** ** Trees: the directories [os.walk] visits, and the paths of a tree *)

(** [os.walk] top-down with [dirs[:]] pruned by [exclude_dirs]: one entry
    [(relative path, entries)] per visited directory, in visiting order. *)
Fixpoint walk_dirs_node (exclude_dirs : list string) (parent : list string) (n : node)
    : list (list string * list node) :=
  match n with
  | File _ => []
  | Dir d ch =>
      let p := (parent ++ [d])%list in
      (p, ch)
      :: concat (map (fun c => if excluded exclude_dirs (node_name c) then []
                               else walk_dirs_node exclude_dirs p c) ch)
  end.

Definition walk_dirs (exclude_dirs : list string) (ch : list node)
    : list (list string * list node) :=
  ([], ch)
  :: concat (map (fun c => if excluded exclude_dirs (node_name c) then []
                           else walk_dirs_node exclude_dirs [] c) ch).

(** Every regular file of a tree, as (directory path, file name), and
    every directory, as its path; in [os.walk]'s top-down order. *)
Fixpoint node_files (parent : list string) (n : node) : list (list string * string) :=
  match n with
  | File s => [(parent, s)]
  | Dir d ch => flat_map (node_files (parent ++ [d])%list) ch
  end.

Definition tree_files (ch : list node) : list (list string * string) :=
  flat_map (node_files []) ch.

Fixpoint node_dirs (parent : list string) (n : node) : list (list string) :=
  match n with
  | File _ => []
  | Dir d ch => (parent ++ [d])%list :: flat_map (node_dirs (parent ++ [d])%list) ch
  end.

Definition tree_dirs (ch : list node) : list (list string) :=
  flat_map (node_dirs []) ch.

(* ------------------------------------------------------------------ *)
(** ** Removing [.git] directories after a clone *)

(** The loop of build_helpers.clone_repository_and_remove_git and of
    prepare_packages.clone_git_repository, after [git clone] succeeded:
    in each directory [os.walk] visits, a subdirectory [.git] is deleted
    with [shutil.rmtree] and taken out of [dirs], so it is not visited. *)
Definition is_git_dir (n : node) : bool :=
  match n with File _ => false | Dir d _ => String.eqb d ".git" end.

Fixpoint remove_git_node (n : node) : node :=
  match n with
  | File s => File s
  | Dir d ch =>
      Dir d ((fix go (l : list node) : list node :=
                match l with
                | [] => []
                | c :: l' => if is_git_dir c then go l' else remove_git_node c :: go l'
                end) ch)
  end.

Definition remove_git_dirs (clone_dir : list node) : list node :=
  flat_map (fun c => if is_git_dir c then [] else [remove_git_node c]) clone_dir.

(* ------------------------------------------------------------------ *)
(** ** _prepare_package: removing mex binaries *)

Definition mex_extensions : list string :=
  [".mexw64"; ".mexa64"; ".mexmaci64"; ".mexmaca64"; ".mexw32"; ".mexglx"; ".mexmac"].

(** [any(file.endswith(ext) for ext in mex_extensions)] *)
Definition is_mex (file : string) : bool :=
  existsb (fun ext => endswith file ext) mex_extensions.

(** [for root, dirs, files in os.walk(mhl_dir): for file in files: ...
    os.remove(file_path)]: every regular file with a mex extension is
    deleted, at every depth; directories stay. *)
Fixpoint remove_mex_node (n : node) : node :=
  match n with
  | File s => File s
  | Dir d ch =>
      Dir d ((fix go (l : list node) : list node :=
                match l with
                | [] => []
                | File s :: l' => if is_mex s then go l' else File s :: go l'
                | (Dir _ _ as c) :: l' => remove_mex_node c :: go l'
                end) ch)
  end.

Definition remove_mex_binaries (mhl_dir : list node) : list node :=
  flat_map (fun c => match c with
                     | File s => if is_mex s then [] else [File s]
                     | Dir _ _ => [remove_mex_node c]
                     end) mhl_dir.

(* ------------------------------------------------------------------ *)
(** ** scripts/prepare_packages.py: paths, scripts and symbols *)

Module prepare_packages.

(** generate_recursive_paths. [base_path] is the state of the directory
    and [base_name] its last component (a path without a trailing
    separator): [os.path.relpath(root, os.path.dirname(base_path))] of a
    directory [rel] below it is [base_name/rel]. *)
Definition generate_recursive_paths (base_path : path_state) (base_name : string)
    (exclude_dirs : list string) : list string :=
  match base_path with
  | Directory ch =>
      sorted (flat_map (fun '(rel, entries) =>
                (* m_files = [f for f in files if f.endswith('.m')] *)
                if existsb (fun f => endswith f ".m") (file_names entries)
                then [join_path (base_name :: rel)] else [])
              (walk_dirs exclude_dirs ch))
  | _ => []   (* os.walk yields nothing for a missing path or a regular file *)
  end.

(** The lines of [load_package.m] and [unload_package.m]. *)
Inductive pline :=
| PLFunction (name : string)   (* function name() *)
| PLComment (text : string)    (*     % text *)
| PLPkgDir                     (*     pkg_dir = fileparts(mfilename('fullpath')); *)
| PLAddpath (path : string)    (*     addpath(fullfile(pkg_dir, 'path')); *)
| PLRmpath (path : string)     (*     rmpath(fullfile(pkg_dir, 'path')); *)
| PLEnd.                       (* end *)

Definition render_pline (l : pline) : string :=
  match l with
  | PLFunction f => "function " ++ f ++ "()"
  | PLComment t => "    % " ++ t
  | PLPkgDir => "    pkg_dir = fileparts(mfilename('fullpath'));"
  | PLAddpath p => "    addpath(fullfile(pkg_dir, '" ++ p ++ "'));"
  | PLRmpath p => "    rmpath(fullfile(pkg_dir, '" ++ p ++ "'));"
  | PLEnd => "end"
  end.

(** create_load_and_unload_scripts(mhl_dir, paths) *)
Definition create_load_and_unload_scripts (paths : list string) : list pline * list pline :=
  ([PLFunction "load_package"; PLComment "Add package directories to MATLAB path"; PLPkgDir]
   ++ map PLAddpath paths ++ [PLEnd],
   [PLFunction "unload_package"; PLComment "Remove package directories from MATLAB path";
    PLPkgDir]
   ++ map PLRmpath paths ++ [PLEnd])%list.

(** Running one of these functions: [pkg_dir] must be assigned before it
    is read; the paths are relative to the script's directory. *)
Fixpoint run_plines (pkg_dir : bool) (ls : list pline) : option (list path_op) :=
  match ls with
  | [] => Some []
  | PLPkgDir :: rest => run_plines true rest
  | PLAddpath p :: rest =>
      if pkg_dir then ops ← run_plines pkg_dir rest; Some (PAdd p :: ops) else None
  | PLRmpath p :: rest =>
      if pkg_dir then ops ← run_plines pkg_dir rest; Some (PRm p :: ops) else None
  | _ :: rest => run_plines pkg_dir rest
  end.

(** The lower-case form of an ASCII string ([str.lower]). *)
Definition lower_ascii (c : ascii) : ascii :=
  let n := nat_of_ascii c in
  if (65 <=? n)%nat && (n <=? 90)%nat then ascii_of_nat (n + 32) else c.

Definition lower (s : string) : string := string_of_list_ascii (map lower_ascii (chars s)).

(** [sub in s] on strings. *)
Fixpoint chars_contains (l k : list ascii) : bool :=
  bool_decide (firstn (List.length k) l = k)
  || match l with [] => false | _ :: l' => chars_contains l' k end.

Definition contains (s sub : string) : bool := chars_contains (chars s) (chars sub).

(** get_current_platform_tag, on [platform.system()] and
    [platform.machine()]. *)
Definition get_current_platform_tag (system machine : string) : string :=
  let system := lower system in
  let machine := lower machine in
  if String.eqb system "linux" then
    if contains machine "x86_64" || contains machine "amd64" then "linux_x86_64"
    else if contains machine "aarch64" || contains machine "arm64" then "linux_aarch64"
    else "any"
  else if String.eqb system "darwin" then
    if contains machine "arm64" then "macos_arm64" else "macos_x86_64"
  else if String.eqb system "windows" then "windows_x86_64"
  else "any".

(** collect_exposed_symbols: its body is that of
    build_helpers.collect_exposed_symbols_with_extensions, with the list
    of extensions always given. *)
Definition collect_exposed_symbols (base_dir : path_state) (extensions : list string)
    : result (list string) :=
  collect_exposed_symbols_with_extensions base_dir (Some extensions).


End prepare_packages.

(* ------------------------------------------------------------------ *)
(** ** mip_build_helpers: platform tag and setup.m *)

Module mip_build_helpers.

(** get_current_platform_tag.get_current_platform_tag, on
    [platform.system()] and [platform.machine()]. *)
Definition get_current_platform_tag (system machine : string) : string :=
  let machine := prepare_packages.lower machine in
  (* Normalize machine architecture names *)
  let machine :=
    if existsb (String.eqb machine) ["x86_64"; "amd64"] then "x86_64"
    else if existsb (String.eqb machine) ["aarch64"; "arm64"] then
      (if String.eqb system "Linux" then "aarch64" else "arm64")
    else if existsb (String.eqb machine) ["i386"; "i686"] then "i686"
    else machine in
  if String.eqb system "Linux" then
    if String.eqb machine "x86_64" then "linux_x86_64"
    else if String.eqb machine "aarch64" then "linux_aarch64"
    else if String.eqb machine "i686" then "linux_i686"
    else "linux_" ++ machine
  else if String.eqb system "Darwin" then
    if String.eqb machine "x86_64" then "macosx_10_9_x86_64"
    else if String.eqb machine "arm64" then "macosx_11_0_arm64"
    else "macosx_10_9_" ++ machine
  else if String.eqb system "Windows" then
    if String.eqb machine "x86_64" then "win_amd64"
    else if String.eqb machine "arm64" then "win_arm64"
    else if String.eqb machine "i686" then "win32"
    else "win_" ++ machine
  else prepare_packages.lower system ++ "_" ++ machine.

(** A line of [setup.m]: a statement, or the block
    [if exist(var, 'file') run(var); end]. *)
Inductive setup_line :=
| SetupStmt (st : mstmt)
| SetupRunIfExists (var : string).

(** build_helpers.create_setup_m: the lines written to [setup.m]. *)
Definition create_setup_m (package_name : string) (subdirs : option (list string))
    (run_startup : bool) : list setup_line :=
  let main := package_name ++ "_path" in
  [SetupStmt (SComment ("Add " ++ package_name ++ " to the MATLAB path"));
   SetupStmt (SAssign main (EOwnDir package_name));
   SetupStmt (SAddpath main)]
  ++ (if truthy subdirs then
        flat_map (fun subdir =>
          [SetupStmt (SComment ("Add " ++ package_name ++ "/" ++ subdir ++ " to the path"));
           SetupStmt (SAssign (subdir ++ "_path") (EFullfile main subdir));
           SetupStmt (SAddpath (subdir ++ "_path"))]) (subdir_list subdirs)
      else [])
  ++ (if run_startup then
        [SetupStmt (SAssign "startup_file" (EFullfile main "startup.m"));
         SetupRunIfExists "startup_file"]
      else []).

End mip_build_helpers.

(* ------------------------------------------------------------------ *)
(** ** Package file names, from preparation to the index *)

Section mhl_filename.

(** [str(v)]: how an f-string renders a value. *)
Variable py_str : jvalue -> string.

(** PackagePreparer._get_mhl_filename *)
Definition PackagePreparer_get_mhl_filename (package_data build : gmap string jvalue)
    : result string :=
  name ← py_index package_data "name";
  version ← py_index package_data "version";
  matlab_tag ← py_index build "matlab_tag";
  abi_tag ← py_index build "abi_tag";
  platform_tag ← py_index build "platform_tag";
  mret (py_str name ++ "-" ++ py_str version ++ "-"
        ++ py_str matlab_tag ++ "-" ++ py_str abi_tag ++ "-" ++ py_str platform_tag ++ ".mhl").

(** [getattr(obj, attr)] *)
Definition py_getattr (obj : gmap string jvalue) (attr : string) : result jvalue :=
  match obj !! attr with Some v => Ok v | None => Raise AttributeError end.

(** PackageBuilder._get_mhl_filename; [package] is the attribute
    dictionary of the [Package] instance. *)
Definition PackageBuilder_get_mhl_filename (package : gmap string jvalue) : result string :=
  name ← py_getattr package "name";
  version ← py_getattr package "version";
  matlab_tag ← py_getattr package "matlab_tag";
  abi_tag ← py_getattr package "abi_tag";
  platform_tag ← py_getattr package "platform_tag";
  mret (py_str name ++ "-" ++ py_str version ++ "-"
        ++ py_str matlab_tag ++ "-" ++ py_str abi_tag ++ "-" ++ py_str platform_tag ++ ".mhl").

End mhl_filename.

(** PackagePreparer.prepare_package_dir: [wheel_name = mhl_filename[:-4]]
    and the name of the output directory, [f"{wheel_name}.dir"]. *)
Definition PackagePreparer_output_dir_name (mhl_filename : string) : string :=
  let wheel_name := slice_drop_last 4 mhl_filename in
  wheel_name ++ ".dir".

(** The URL PackagePreparer._check_existing_package probes. *)
Definition PackagePreparer_mip_json_url (mhl_filename : string) : string :=
  PackagePreparer_base_url ++ "/" ++ mhl_filename ++ ".mip.json".

Definition PackageBundler_bucket_prefix : string := "core/packages".

(** PackageBundler._get_content_type *)
Definition PackageBundler_get_content_type (file_path : string) : string :=
  if endswith file_path ".mhl" then "application/zip"
  else if endswith file_path ".json" then "application/json"
  else "application/octet-stream".

(** What reading [mip.json] in the directory gives. *)
Inductive mip_json_file :=
| MipJsonMissing
| MipJsonUnreadable
| MipJsonRead (m : gmap string jvalue).

(** PackageBundler.bundle_and_upload_package on a directory named
    [dir_name]: [mhl_ok] says whether [_create_mhl_file] succeeds and
    [upload_ok key] whether uploading to [key] succeeds (a failure raises
    and is caught). The result is the return value and the uploads done,
    in order, as (key, content type). *)
Definition PackageBundler_bundle_and_upload_package (dry_run : bool) (dir_name : string)
    (mip_json : mip_json_file) (temp_dir : string) (mhl_ok : bool)
    (upload_ok : string -> bool) : bool * list (string * string) :=
  (* Verify it's a .dir directory *)
  if negb (endswith dir_name ".dir") then (true, []) else
  let wheel_name := slice_drop_last 4 dir_name in
  let mhl_filename := wheel_name ++ ".mhl" in
  match mip_json with
  | MipJsonMissing | MipJsonUnreadable => (false, [])
  | MipJsonRead _ =>
      if dry_run then (true, []) else
      let mhl_path := temp_dir ++ "/" ++ mhl_filename in
      let mip_json_upload_path := temp_dir ++ "/" ++ mhl_filename ++ ".mip.json" in
      let mhl_key := PackageBundler_bucket_prefix ++ "/" ++ mhl_filename in
      let mip_json_key := PackageBundler_bucket_prefix ++ "/" ++ mhl_filename ++ ".mip.json" in
      if negb mhl_ok then (false, []) else
      if negb (upload_ok mhl_key) then (false, []) else
      let first := (mhl_key, PackageBundler_get_content_type mhl_path) in
      if negb (upload_ok mip_json_key) then (false, [first]) else
      (true, [first; (mip_json_key, PackageBundler_get_content_type mip_json_upload_path)])
  end.

(** [os.path.basename]: what follows the last ['/']. *)
Fixpoint last_segment (l cur : list ascii) : list ascii :=
  match l with
  | [] => cur
  | c :: l' => if Ascii.eqb c "/"%char then last_segment l' [] else last_segment l' (cur ++ [c])%list
  end.

Definition basename (p : string) : string := string_of_list_ascii (last_segment (chars p) []).

Definition IndexAssembler_base_url : string :=
  "https://mip-packages.neurosift.app/core/packages".

(** The filter of IndexAssembler._list_mip_json_files, over the keys the
    pages list. *)
Definition IndexAssembler_list_mip_json_files (keys : list string) : list string :=
  List.filter (fun key => endswith key ".mhl.mip.json") keys.

(** IndexAssembler._download_mip_json once the body has been parsed to a
    JSON object [metadata]: the two URLs are filled in when absent. *)
Definition IndexAssembler_download_mip_json (key : string) (metadata : gmap string jvalue)
    : gmap string jvalue :=
  let metadata :=
    match metadata !! "mhl_url" with
    | None =>
        let filename := basename key in
        let mhl_filename := slice_drop_last 9 filename in
        <["mhl_url" := JStr (IndexAssembler_base_url ++ "/" ++ mhl_filename)]> metadata
    | Some _ => metadata
    end in
  match metadata !! "mip_json_url" with
  | None =>
      let filename := basename key in
      let mhl_filename := slice_drop_last 9 filename in
      <["mip_json_url" := JStr (IndexAssembler_base_url ++ "/" ++ mhl_filename ++ ".mip.json")]>
        metadata
  | Some _ => metadata
  end.

(** [html.escape(s)] (with [quote=True]): the replacements of ['&'] (done
    first), ['<'], ['>'] and of the double and the single quote amount to
    escaping each character on its own. *)
Definition html_escape_char (c : ascii) : string :=
  let n := nat_of_ascii c in
  if (n =? 38)%nat then "&amp;"
  else if (n =? 60)%nat then "&lt;"
  else if (n =? 62)%nat then "&gt;"
  else if (n =? 34)%nat then "&quot;"
  else if (n =? 39)%nat then "&#x27;"
  else String c EmptyString.

Definition html_escape (s : string) : string :=
  String.concat "" (map html_escape_char (chars s)).

(** The description cell of IndexAssembler._generate_index_html for one
    package: [html.escape] of a value that is not a string raises
    [AttributeError] (it calls [.replace]). *)
Definition IndexAssembler_description_cell (pkg : gmap string jvalue) : result string :=
  match py_get_default pkg "description" (JStr "") with
  | JStr d =>
      let description := html_escape d in
      (* Truncate long descriptions *)
      if (80 <? String.length description)%nat
      then mret (substring 0 77 description ++ "...")
      else mret description
  | _ => Raise AttributeError
  end.

(** PackageBuilder._create_mip_json: the dict it writes to mip.json;
    each attribute is read with [getattr]. [timestamp] stands for
    [datetime.utcnow().isoformat()] and [build_duration] for
    [round(build_duration, 2)]. *)
Definition PackageBuilder_create_mip_json (package : gmap string jvalue) (timestamp : string)
    (build_duration : jvalue) : result (gmap string jvalue) :=
  name ← py_getattr package "name";
  description ← py_getattr package "description";
  version ← py_getattr package "version";
  build_number ← py_getattr package "build_number";
  dependencies ← py_getattr package "dependencies";
  homepage ← py_getattr package "homepage";
  repository ← py_getattr package "repository";
  matlab_tag ← py_getattr package "matlab_tag";
  abi_tag ← py_getattr package "abi_tag";
  platform_tag ← py_getattr package "platform_tag";
  exposed_symbols ← py_getattr package "exposed_symbols";
  mret (list_to_map
    [("name", name);
     ("description", description);
     ("version", version);
     ("build_number", build_number);
     ("dependencies", dependencies);
     ("homepage", homepage);
     ("repository", repository);
     ("matlab_tag", matlab_tag);
     ("abi_tag", abi_tag);
     ("platform_tag", platform_tag);
     ("exposed_symbols", exposed_symbols);
     ("timestamp", JStr (timestamp ++ "Z"));
     ("build_duration", build_duration)] : gmap string jvalue).

(** scripts/test_published_packages.py,
    PackageTester.filter_packages_by_architecture over the packages of
    the downloaded index. *)
Definition PackageTester_filter_packages_by_architecture (architecture : string)
    (packages : list (gmap string jvalue)) : list (gmap string jvalue) :=
  List.filter (fun pkg =>
    let pkg_arch := py_get_default pkg "architecture" (JStr "any") in
    py_eq pkg_arch (JStr architecture) || py_eq pkg_arch (JStr "any")) packages.

(** [os.path.join(a, b)] of two path components (POSIX). *)
Definition os_path_join (a b : string) : string :=
  if startswith b "/" then b
  else if String.eqb a "" || endswith a "/" then a ++ b
  else a ++ "/" ++ b.

(** An entry of the [addpaths] list of prepare.yaml: a string, a dict
    (its [path], absent when [None], the truthiness of its [recursive]
    entry and its [exclude] list, [[]] by default), or another value.
    The model covers dicts whose [path], when present, is a string and
    whose [exclude], when present, is a list of strings; a null or
    non-string [path] or a null [exclude] (which make the recursive
    branch raise [TypeError]) is not represented. *)
Inductive path_item :=
| PathStr (s : string)
| PathDict (path : option string) (recursive : bool) (exclude : list string)
| PathOther.

(** The loop of PackagePreparer._prepare_package that computes
    [all_paths]; [lookup] gives the state of a path on disk. A string
    [path] is assumed to be a plain relative path (no [.] or [..]
    component, no trailing separator), for which the last component of
    [full_path] is [os.path.basename(full_path)]. *)
Fixpoint PackagePreparer_compute_all_paths (lookup : string -> path_state) (mhl_dir : string)
    (addpaths_config : list path_item) : result (list string) :=
  match addpaths_config with
  | [] => Ok []
  | PathStr s :: rest =>
      r ← PackagePreparer_compute_all_paths lookup mhl_dir rest;
      mret (s :: r)
  | PathDict None _ _ :: _ => Raise KeyError   (* path_item['path'] *)
  | PathDict (Some path) recursive exclude :: rest =>
      let here :=
        if recursive then
          let full_path := os_path_join mhl_dir path in
          prepare_packages.generate_recursive_paths (lookup full_path) (basename full_path) exclude
        else [path] in
      r ← PackagePreparer_compute_all_paths lookup mhl_dir rest;
      mret (here ++ r)%list
  | PathOther :: rest => PackagePreparer_compute_all_paths lookup mhl_dir rest
  end.

(* ================================================================== *)
(** * Proofs *)

Definition str_le (a b : string) : Prop := str_leb a b = true.

Lemma chars_append (s t : string) : chars (s ++ t) = (chars s ++ chars t)%list.
Proof. induction s as [|c s IH]; simpl; [done|]. unfold chars in *. by rewrite IH. Qed.

Lemma chars_leb_total (a b : list ascii) : chars_leb a b = true \/ chars_leb b a = true.
Proof.
  revert b. induction a as [|x a IH]; intros [|y b]; simpl; auto.
  destruct (Nat.ltb_spec (nat_of_ascii x) (nat_of_ascii y));
  destruct (Nat.ltb_spec (nat_of_ascii y) (nat_of_ascii x)); auto; lia.
Qed.

Lemma str_leb_false (a b : string) : str_leb a b = false -> str_le b a.
Proof.
  unfold str_le, str_leb. intros H.
  destruct (chars_leb_total (chars a) (chars b)); congruence.
Qed.

Lemma insert_by_perm {A} (key : A -> string) (x : A) (l : list A) :
  Permutation (insert_by key x l) (x :: l).
Proof.
  induction l as [|y l IH]; simpl; [done|].
  destruct (str_leb (key x) (key y)); [done|].
  rewrite IH. constructor.
Qed.

Lemma sort_by_perm {A} (key : A -> string) (l : list A) :
  Permutation (sort_by key l) l.
Proof.
  induction l as [|x l IH]; simpl; [done|].
  rewrite insert_by_perm. by constructor.
Qed.

Lemma insert_hd (x y : string) (l : list string) :
  HdRel str_le y l -> str_le y x -> HdRel str_le y (insert_by (fun s => s) x l).
Proof.
  intros Hl Hyx. destruct l as [|z l]; simpl.
  - by constructor.
  - destruct (str_leb x z); constructor; [done|]. by inversion Hl.
Qed.

Lemma insert_sorted (x : string) (l : list string) :
  Sorted str_le l -> Sorted str_le (insert_by (fun s => s) x l).
Proof.
  induction 1 as [|y l Hs IH Hhd]; simpl.
  - repeat constructor.
  - destruct (str_leb x y) eqn:E.
    + constructor; [by constructor|]. by constructor.
    + constructor; [done|]. apply insert_hd; [done|]. by apply str_leb_false.
Qed.

Lemma sorted_Sorted (l : list string) : Sorted str_le (sorted l).
Proof.
  unfold sorted. induction l as [|x l IH]; simpl; [constructor|].
  by apply insert_sorted.
Qed.

Lemma sorted_perm (l : list string) : Permutation (sorted l) l.
Proof. apply sort_by_perm. Qed.

Lemma sorted_nil : sorted [] = [].
Proof. reflexivity. Qed.

Lemma flat_map_filter_map {A B} (p : A -> bool) (f : A -> B) (l : list A) :
  flat_map (fun x => if p x then [f x] else []) l = map f (List.filter p l).
Proof. induction l as [|x l IH]; simpl; [reflexivity|]. destruct (p x); simpl; now rewrite IH. Qed.

Lemma endswith_append_m (t : string) : endswith (t ++ ".m") ".m" = true.
Proof.
  unfold endswith. rewrite chars_append. simpl chars.
  rewrite length_app. simpl.
  replace (length (chars t) + 2 - 2)%nat with (length (chars t)) by lia.
  rewrite drop_app_length. rewrite bool_decide_eq_true_2; [|done].
  apply andb_true_intro; split; [rewrite Nat.add_comm; reflexivity|done].
Qed.

Lemma slice_drop_last_append_m (t : string) : slice_drop_last 2 (t ++ ".m") = t.
Proof.
  unfold slice_drop_last. simpl. rewrite chars_append, length_app. simpl.
  replace (length (chars t) + 2 - 2)%nat with (length (chars t)) by lia.
  rewrite take_app_length. apply string_of_list_ascii_of_string.
Qed.

(* ------------------------------------------------------------------ *)
(** ** C1: the decoder *)

(** C1 (counterexample). On ["+pkg.m"] the decoder does not return the
    name with exactly the suffix removed (["+pkg"]): after removing
    [".m"] it also removes the leading ['+'], giving ["pkg"]. *)
Lemma decoder_strips_prefix_after_suffix :
  _extract_symbol_name "+pkg.m" = "pkg" /\ _extract_symbol_name "+pkg.m" <> "+pkg".
Proof. split; [reflexivity|discriminate]. Qed.

(** C1 (amended). For every name [t ++ ".m"], the decoder removes the
    suffix [".m"] and then, if what remains starts with ['+'] or ['@'],
    also removes that first character; otherwise it returns [t], the name
    with exactly the suffix removed. *)
Theorem decoder_on_m_suffix (t : string) :
  _extract_symbol_name (t ++ ".m") = if is_pkg_or_class t then slice_from1 t else t.
Proof.
  unfold _extract_symbol_name, is_pkg_or_class.
  rewrite endswith_append_m, slice_drop_last_append_m. reflexivity.
Qed.

(* ------------------------------------------------------------------ *)
(** ** C2: no deduplication *)

(** C2 (counterexample). A file [foo.m] and a directory [+foo] both
    decode to ["foo"]; the recursive collector reports it twice, and so
    does the multi-path collector for [foo.m] under two scanned paths. *)
Lemma collectors_keep_duplicates :
  collect_exposed_symbols_recursive (Directory [File "foo.m"; Dir "+foo" []]) "." None
    = Ok ["foo"; "foo"]
  /\ collect_exposed_symbols_multiple_paths
       [Directory [File "foo.m"]; Directory [File "foo.m"]] ["a"; "b"] = Ok ["foo"; "foo"]
  /\ ~ NoDup ["foo"; "foo"].
Proof.
  split; [reflexivity|]. split; [reflexivity|].
  intros H. inversion H as [|x l Hx Hl]. apply Hx. left.
Qed.

(** C2 (amended). The recursive collector returns the ascending sort of
    a permutation of the names decoded at every visited directory (one per
    qualifying entry, multiplicities kept, no deduplication); the
    multi-path collector returns the ascending sort of the concatenated
    top-level results, again keeping multiplicities. *)
Theorem collectors_sort_without_dedup :
  (forall (ch : list node) (base : string) (excl : option (list string)),
     exists r,
       collect_exposed_symbols_recursive (Directory ch) base excl = Ok r
       /\ Sorted str_le r
       /\ Permutation r (concat (map snd (walk (match excl with None => [] | Some e => e end) ch))))
  /\ (forall (dirs : list path_state) (bases : list string),
       match extend_top_level (combine dirs bases) with
       | Ok s => exists r, collect_exposed_symbols_multiple_paths dirs bases = Ok r
                           /\ Sorted str_le r /\ Permutation r s
       | Raise e => collect_exposed_symbols_multiple_paths dirs bases = Raise e
       end).
Proof.
  split.
  - intros ch base excl. eexists. split; [reflexivity|].
    split; [apply sorted_Sorted|apply sorted_perm].
  - intros dirs bases. unfold collect_exposed_symbols_multiple_paths.
    destruct (extend_top_level (combine dirs bases)) as [s|e]; [|reflexivity].
    eexists. split; [reflexivity|]. split; [apply sorted_Sorted|apply sorted_perm].
Qed.

(* ------------------------------------------------------------------ *)
(** ** C3: where the two collectors sort *)

Lemma top_level_as_filter (ch : list node) (base : string) :
  collect_exposed_symbols_top_level (Directory ch) base
  = Ok (map (fun n => _extract_symbol_name (node_name n))
            (List.filter top_level_qualifies (sort_by node_name ch))).
Proof.
  unfold collect_exposed_symbols_top_level. f_equal.
  induction (sort_by node_name ch) as [|[s|s c] l IH]; simpl; [reflexivity| |];
    [destruct (endswith s ".m")|destruct (is_pkg_or_class s)]; simpl; by rewrite IH.
Qed.

(** C3. The recursive collector's result is sorted ascending over the
    decoded names; the top-level collector's result is the decoded names
    of the qualifying entries taken in ascending order of the raw entry
    names; on [foo.m], [+bar], [@baz], [ignored.txt] the top-level
    collector returns [["bar"; "baz"; "foo"]]. *)
Theorem recursive_sorts_decoded_top_level_sorts_raw :
  (forall (ch : list node) (base : string) (excl : option (list string)),
     exists r, collect_exposed_symbols_recursive (Directory ch) base excl = Ok r
               /\ Sorted str_le r)
  /\ (forall (ch : list node) (base : string),
        collect_exposed_symbols_top_level (Directory ch) base
        = Ok (map (fun n => _extract_symbol_name (node_name n))
                  (List.filter top_level_qualifies (sort_by node_name ch))))
  /\ collect_exposed_symbols_top_level
       (Directory [File "foo.m"; Dir "+bar" []; Dir "@baz" []; File "ignored.txt"]) "."
     = Ok ["bar"; "baz"; "foo"].
Proof.
  split; [|split; [apply top_level_as_filter|reflexivity]].
  intros ch base excl. eexists. split; [reflexivity|apply sorted_Sorted].
Qed.

(** The top-level order is not the order of the decoded names. *)
Example top_level_not_sorted_by_decoded :
  collect_exposed_symbols_top_level (Directory [File "b.m"; Dir "+c" []; Dir "@a" []]) "."
  = Ok ["c"; "a"; "b"].
Proof. reflexivity. Qed.

(* ------------------------------------------------------------------ *)
(** ** C9: missing directories *)

Lemma extend_top_level_missing (n : nat) (bases : list string) :
  extend_top_level (combine (repeat Missing n) bases) = Ok [].
Proof.
  revert bases. induction n as [|n IH]; intros [|b bases]; simpl; try reflexivity.
  by rewrite IH.
Qed.

Lemma extend_top_level_drop_missing (pre post : list (path_state * string)) (b : string) :
  extend_top_level (pre ++ (Missing, b) :: post)%list = extend_top_level (pre ++ post)%list.
Proof.
  induction pre as [|[d b'] pre IH]; simpl.
  - by destruct (extend_top_level post).
  - by rewrite IH.
Qed.

Lemma combine_app_same_length {A B : Type} (a1 a2 : list A) (b1 b2 : list B) :
  length a1 = length b1 ->
  combine (a1 ++ a2)%list (b1 ++ b2)%list = (combine a1 b1 ++ combine a2 b2)%list.
Proof.
  revert b1. induction a1 as [|x a1 IH]; intros [|y b1] Hl; simpl in *; try done.
  f_equal. apply IH. lia.
Qed.

(** C9. Every collector returns the empty list, without raising, on a
    directory that does not exist; the multi-path collector over any
    number of nonexistent directories (in particular two) returns the
    empty list, and a nonexistent directory among other paths contributes
    nothing: the result is the one for the list without it (and without
    its base path). *)
Theorem collectors_on_missing_dirs :
  (forall base, collect_exposed_symbols_top_level Missing base = Ok [])
  /\ (forall base excl, collect_exposed_symbols_recursive Missing base excl = Ok [])
  /\ (forall exts, collect_exposed_symbols_with_extensions Missing exts = Ok [])
  /\ (forall (n : nat) (bases : list string),
        collect_exposed_symbols_multiple_paths (repeat Missing n) bases = Ok [])
  /\ collect_exposed_symbols_multiple_paths [Missing; Missing] ["a"; "b"] = Ok []
  /\ (forall (dirs1 dirs2 : list path_state) (bases1 bases2 : list string) (base : string),
        length dirs1 = length bases1 ->
        collect_exposed_symbols_multiple_paths (dirs1 ++ Missing :: dirs2)%list
                                               (bases1 ++ base :: bases2)%list
        = collect_exposed_symbols_multiple_paths (dirs1 ++ dirs2)%list
                                                 (bases1 ++ bases2)%list).
Proof.
  split; [reflexivity|]. split; [reflexivity|]. split; [reflexivity|].
  split; [|split; [reflexivity|]].
  - intros n bases. unfold collect_exposed_symbols_multiple_paths.
    by rewrite extend_top_level_missing.
  - intros dirs1 dirs2 bases1 bases2 base Hl. unfold collect_exposed_symbols_multiple_paths.
    rewrite !combine_app_same_length by exact Hl. simpl.
    by rewrite extend_top_level_drop_missing.
Qed.

(* ------------------------------------------------------------------ *)
(** ** C4: pruning of excluded directories *)

Lemma node_ind' (P : node -> Prop)
  (HF : forall s, P (File s))
  (HD : forall d ch, Forall P ch -> P (Dir d ch)) :
  forall n, P n.
Proof.
  fix IH 1. intros [s|d ch]; [apply HF|apply HD].
  induction ch as [|c ch IHch]; constructor; [apply IH|apply IHch].
Qed.

Lemma prune_node_dir (excl : list string) (d : string) (ch : list node) :
  prune_node excl (Dir d ch) = Dir d (prune_children excl ch).
Proof.
  simpl. f_equal. unfold prune_children.
  induction ch as [|c ch IH]; simpl; [reflexivity|].
  destruct (excluded_dir excl c); simpl; by rewrite IH.
Qed.
Arguments prune_node : simpl never.

Lemma prune_node_name (excl : list string) (n : node) :
  node_name (prune_node excl n) = node_name n.
Proof. destruct n as [s|d ch]; [reflexivity|]. by rewrite prune_node_dir. Qed.

Lemma excluded_nil (d : string) : excluded [] d = false.
Proof. unfold excluded. apply bool_decide_eq_false_2. apply not_elem_of_nil. Qed.

Lemma filter_not_excluded_nil (l : list string) :
  List.filter (fun d => negb (excluded [] d)) l = l.
Proof. induction l as [|x l IH]; [done|]. cbn [List.filter]. rewrite excluded_nil, IH. reflexivity. Qed.

Lemma file_names_prune (excl : list string) (ch : list node) :
  file_names (prune_children excl ch) = file_names ch.
Proof.
  unfold prune_children.
  induction ch as [|[s|d c] ch IH]; simpl; [done| |].
  - by rewrite IH.
  - destruct (excluded excl d); simpl; [done|]. rewrite ?prune_node_dir. simpl. done.
Qed.

Lemma dir_names_prune (excl : list string) (ch : list node) :
  dir_names (prune_children excl ch)
  = List.filter (fun d => negb (excluded excl d)) (dir_names ch).
Proof.
  unfold prune_children.
  induction ch as [|[s|d c] ch IH]; simpl; [done| |].
  - done.
  - destruct (excluded excl d); simpl; [done|]. rewrite ?prune_node_dir. simpl. by rewrite IH.
Qed.

Lemma level_symbols_prune (excl : list string) (ch : list node) :
  level_symbols excl ch = level_symbols [] (prune_children excl ch).
Proof.
  unfold level_symbols. rewrite file_names_prune, dir_names_prune.
  by rewrite filter_not_excluded_nil.
Qed.

Lemma map_walk_nil (p : list string) (l : list node) :
  map (fun c => if excluded [] (node_name c) then [] else walk_node [] p c) l
  = map (walk_node [] p) l.
Proof. apply map_ext. intros c. by rewrite excluded_nil. Qed.

Lemma concat_map_filter {A B} (q : A -> bool) (h : A -> list B) (l : list A) :
  concat (map (fun c => if q c then h c else []) l) = concat (map h (List.filter q l)).
Proof. induction l as [|x l IH]; [done|]. cbn. destruct (q x); cbn; by rewrite IH. Qed.

Lemma walk_children_prune (excl : list string) (p : list string) (ch : list node) :
  Forall (fun n => forall p, walk_node excl p n = walk_node [] p (prune_node excl n)) ch ->
  concat (map (fun c => if excluded excl (node_name c) then [] else walk_node excl p c) ch)
  = concat (map (walk_node [] p) (prune_children excl ch)).
Proof.
  intros H. rewrite Forall_forall in H.
  transitivity (concat (map (fun c => if negb (excluded_dir excl c)
                                      then walk_node [] p (prune_node excl c) else []) ch)).
  - f_equal. apply map_ext_in. intros [s|d c'] Hc.
    + cbn [node_name excluded_dir]. destruct (excluded excl s); reflexivity.
    + cbn [node_name excluded_dir]. destruct (excluded excl d); [reflexivity|].
      apply H. by apply list_elem_of_In.
  - rewrite concat_map_filter. unfold prune_children. by rewrite map_map.
Qed.

Lemma walk_node_prune (excl : list string) (n : node) :
  forall p, walk_node excl p n = walk_node [] p (prune_node excl n).
Proof.
  induction n as [s|d ch IH] using node_ind'; intros p; [reflexivity|].
  rewrite prune_node_dir. cbn [walk_node]. rewrite map_walk_nil, level_symbols_prune.
  f_equal. by apply walk_children_prune.
Qed.

Lemma walk_prune (excl : list string) (ch : list node) :
  walk excl ch = walk [] (prune_children excl ch).
Proof.
  unfold walk. rewrite map_walk_nil, level_symbols_prune. f_equal.
  apply walk_children_prune. apply Forall_forall. intros n _. apply walk_node_prune.
Qed.

Lemma walk_node_paths (excl : list string) (n : node) :
  forall parent, (forall c, c ∈ parent -> c ∉ excl) ->
  excluded excl (node_name n) = false ->
  forall x, x ∈ walk_node excl parent n -> forall c, c ∈ x.1 -> c ∉ excl.
Proof.
  induction n as [s|d ch IH] using node_ind'; intros parent Hpar Hn x Hx; simpl in Hx.
  - by apply not_elem_of_nil in Hx.
  - unfold excluded in Hn. simpl in Hn. apply bool_decide_eq_false_1 in Hn.
    assert (Hp : forall c, c ∈ (parent ++ [d])%list -> c ∉ excl).
    { intros c Hc. apply elem_of_app in Hc as [Hc|Hc]; [by apply Hpar|].
      apply list_elem_of_singleton in Hc. by subst. }
    apply elem_of_cons in Hx as [->|Hx]; [exact Hp|].
    apply list_elem_of_In, in_concat in Hx as [l [Hl Hxl]].
    apply in_map_iff in Hl as [c [<- Hc]].
    destruct (excluded excl (node_name c)) eqn:Ec; [done|].
    rewrite Forall_forall in IH.
    eapply IH; [by apply list_elem_of_In| exact Hp | exact Ec | by apply list_elem_of_In].
Qed.

(** C4. An excluded directory and everything beneath it contribute
    nothing: the recursive collector with exclusion set [excl] returns
    what it returns with no exclusions on the tree from which every
    directory named in [excl] has been removed (at any depth, including
    ['+']/['@'] directories); and no directory [os.walk] visits has a
    path through a directory named in [excl]. *)
Theorem recursive_prunes_excluded_dirs :
  (forall (ch : list node) (base : string) (excl : list string),
     collect_exposed_symbols_recursive (Directory ch) base (Some excl)
     = collect_exposed_symbols_recursive (Directory (prune_children excl ch)) base None)
  /\ (forall (ch : list node) (excl : list string) (x : list string * list string),
        x ∈ walk excl ch -> forall c, c ∈ x.1 -> c ∉ excl)
  /\ collect_exposed_symbols_recursive
       (Directory [Dir "+test" [File "b.m"; Dir "@c" []]; File "a.m"]) "." (Some ["+test"])
     = Ok ["a"].
Proof.
  split; [|split; [|reflexivity]].
  - intros ch base excl. unfold collect_exposed_symbols_recursive. by rewrite walk_prune.
  - intros ch excl x Hx c Hc. unfold walk in Hx.
    apply elem_of_cons in Hx as [->|Hx]; [by apply not_elem_of_nil in Hc|].
    apply list_elem_of_In, in_concat in Hx as [l [Hl Hxl]].
    apply in_map_iff in Hl as [n [<- Hn]].
    destruct (excluded excl (node_name n)) eqn:En; [done|].
    eapply walk_node_paths; [| exact En | by apply list_elem_of_In | exact Hc].
    intros c' Hc'. by apply not_elem_of_nil in Hc'.
Qed.

(* ------------------------------------------------------------------ *)
(** ** C5 and C10: the existence check *)

Lemma py_eq_null_l (v : jvalue) : v <> JNull -> py_eq JNull v = false.
Proof. destruct v; simpl; congruence. Qed.

Lemma py_eq_null_r (v : jvalue) : v <> JNull -> py_eq v JNull = false.
Proof. destruct v; simpl; congruence. Qed.

Lemma compare_get_mismatch (m local : gmap string jvalue) (fields : list string) (f : string) :
  f ∈ fields -> py_eq (py_get m f) (py_get local f) = false ->
  compare_get m local fields = Ok false.
Proof.
  intros Hf Hneq. induction fields as [|g fields IH]; [by apply not_elem_of_nil in Hf|].
  simpl. apply elem_of_cons in Hf as [->|Hf].
  - by rewrite Hneq.
  - destruct (py_eq (py_get m g) (py_get local g)); simpl; [by apply IH|done].
Qed.

Lemma compare_getattr_not_true (m attrs : gmap string jvalue) (fields : list string) (f : string) :
  f ∈ fields ->
  (attrs !! f = None \/ exists v, attrs !! f = Some v /\ py_eq (py_get m f) v = false) ->
  compare_getattr m attrs fields <> Ok true.
Proof.
  intros Hf Hf'. induction fields as [|g fields IH]; [by apply not_elem_of_nil in Hf|].
  simpl. destruct (attrs !! g) as [w|] eqn:Eg; [|discriminate].
  destruct (py_eq (py_get m g) w) eqn:Ew; simpl; [|discriminate].
  apply elem_of_cons in Hf as [->|Hf]; [|by apply IH].
  destruct Hf' as [Hn|(v & Hv & Hne)]; congruence.
Qed.

Lemma compare_getattr_cases (m attrs : gmap string jvalue) (fields : list string) :
  compare_getattr m attrs fields = Ok true \/ compare_getattr m attrs fields = Ok false
  \/ compare_getattr m attrs fields = Raise AttributeError.
Proof.
  induction fields as [|g fields IH]; cbn [compare_getattr]; [by left|].
  destruct (attrs !! g) as [w|]; [|by right; right].
  destruct (negb (py_eq (py_get m g) w)); [by right; left|exact IH].
Qed.

Lemma catch_request_exception_true (r : result bool) :
  catch_request_exception r = Ok true -> r = Ok true.
Proof.
  destruct r as [b|e]; simpl; [done|]. destruct (is_request_exception e); discriminate.
Qed.

(** C5 (counterexample). A manifest in the bucket with ["license": null]
    matches a [prepare.yaml] without a license field (and vice versa): the
    check answers [True] (skip) although the field is present on one side
    only, because [.get] turns absence into [None]. *)
Lemma existence_check_absent_equals_null :
  PackagePreparer_check_existing_package
    (ProbeResponse 200 (BodyJSON (DocObject {[ "license" := JNull ]}))) ∅ = Ok true
  /\ PackagePreparer_check_existing_package
       (ProbeResponse 200 (BodyJSON (DocObject ∅))) {[ "license" := JNull ]} = Ok true.
Proof. split; reflexivity. Qed.

(** C5 (amended). When a compared field is present on one side only with a
    non-null value (an empty string or list included), the preparer's check
    answers [False] (rebuild) and the builder's check answers [False] or
    raises [AttributeError] (for an attribute the [Package] object lacks);
    absence and an explicit null compare equal. *)
Theorem existence_check_one_sided_field (st : Z) (m local : gmap string jvalue)
    (f : string) (v : jvalue)
    (Hst : raise_for_status st = false) (H404 : st <> 404%Z) (Hv : v <> JNull)
    (Hone : (m !! f = None /\ local !! f = Some v) \/ (m !! f = Some v /\ local !! f = None)) :
  (f ∈ prepare_fields_to_compare ->
     PackagePreparer_check_existing_package (ProbeResponse st (BodyJSON (DocObject m))) local
     = Ok false)
  /\ (f ∈ builder_fields_to_compare ->
        PackageBuilder_check_existing_package (ProbeResponse st (BodyJSON (DocObject m))) local
        = Ok false
        \/ PackageBuilder_check_existing_package (ProbeResponse st (BodyJSON (DocObject m))) local
           = Raise AttributeError)
  /\ py_eq (py_get (<[f := JNull]> m) f) (py_get (delete f local) f) = true
  /\ py_eq (py_get (delete f m) f) (py_get (<[f := JNull]> local) f) = true.
Proof.
  assert (Hbody : forall compare, check_try_body (ProbeResponse st (BodyJSON (DocObject m))) compare
                                  = compare m).
  { intros compare. simpl. apply Z.eqb_neq in H404. by rewrite H404, Hst. }
  split; [|split; [|split]].
  - intros Hf. unfold PackagePreparer_check_existing_package. rewrite Hbody.
    erewrite compare_get_mismatch; [reflexivity|exact Hf|].
    unfold py_get. destruct Hone as [[H1 H2]|[H1 H2]]; rewrite H1, H2; simpl.
    + by apply py_eq_null_l.
    + by apply py_eq_null_r.
  - intros Hf. unfold PackageBuilder_check_existing_package. rewrite Hbody.
    assert (Hnt : compare_getattr m local builder_fields_to_compare <> Ok true).
    { apply compare_getattr_not_true with (f := f); [exact Hf|].
      destruct Hone as [[H1 H2]|[H1 H2]]; [right|left; exact H2].
      exists v. split; [exact H2|]. unfold py_get. rewrite H1. by apply py_eq_null_l. }
    destruct (compare_getattr_cases m local builder_fields_to_compare) as [E|[E|E]];
      rewrite E; [contradiction|left|right]; reflexivity.
  - unfold py_get. by rewrite lookup_insert_eq, lookup_delete_eq.
  - unfold py_get. by rewrite lookup_insert_eq, lookup_delete_eq.
Qed.

Lemma existence_check_one_sided_field_witness :
  (("homepage" ∈ prepare_fields_to_compare ->
     PackagePreparer_check_existing_package
       (ProbeResponse 200 (BodyJSON (DocObject ∅))) {[ "homepage" := JStr "" ]} = Ok false)
  /\ ("homepage" ∈ builder_fields_to_compare ->
        PackageBuilder_check_existing_package
          (ProbeResponse 200 (BodyJSON (DocObject ∅))) {[ "homepage" := JStr "" ]} = Ok false
        \/ PackageBuilder_check_existing_package
              (ProbeResponse 200 (BodyJSON (DocObject ∅))) {[ "homepage" := JStr "" ]}
            = Raise AttributeError)
  /\ py_eq (py_get (<["homepage" := JNull]> (∅ : gmap string jvalue)) "homepage")
           (py_get (delete "homepage" ({[ "homepage" := JStr "" ]} : gmap string jvalue)) "homepage")
     = true
  /\ py_eq (py_get (delete "homepage" (∅ : gmap string jvalue)) "homepage")
           (py_get (<["homepage" := JNull]> ({[ "homepage" := JStr "" ]} : gmap string jvalue))
                   "homepage") = true).
Proof.
  apply (existence_check_one_sided_field 200 ∅ {[ "homepage" := JStr "" ]} "homepage" (JStr "")).
  - reflexivity.
  - discriminate.
  - discriminate.
  - left. split; reflexivity.
Defined.

(** C10. A probe that raises a request exception (timeout, connection
    failure, ...) or whose status makes [raise_for_status] raise is
    caught: both checks answer [False], so the package is rebuilt. *)
Theorem existence_check_probe_failure (e : exc) (st : Z) (body : http_body)
    (local attrs : gmap string jvalue)
    (He : is_request_exception e = true) (Hst : (400 <= st < 600)%Z) :
  PackagePreparer_check_existing_package (ProbeRaises e) local = Ok false
  /\ PackageBuilder_check_existing_package (ProbeRaises e) attrs = Ok false
  /\ PackagePreparer_check_existing_package (ProbeResponse st body) local = Ok false
  /\ PackageBuilder_check_existing_package (ProbeResponse st body) attrs = Ok false.
Proof.
  assert (Hr : raise_for_status st = true).
  { unfold raise_for_status. apply andb_true_intro. split; [apply Z.leb_le|apply Z.ltb_lt]; lia. }
  unfold PackagePreparer_check_existing_package, PackageBuilder_check_existing_package.
  simpl. rewrite He, Hr. by destruct (Z.eqb st 404).
Qed.

Lemma existence_check_probe_failure_witness :
  PackagePreparer_check_existing_package (ProbeRaises Timeout) ∅ = Ok false
  /\ PackageBuilder_check_existing_package (ProbeRaises Timeout) ∅ = Ok false
  /\ PackagePreparer_check_existing_package (ProbeResponse 503 BodyNotJSON) ∅ = Ok false
  /\ PackageBuilder_check_existing_package (ProbeResponse 503 BodyNotJSON) ∅ = Ok false.
Proof.
  apply (existence_check_probe_failure Timeout 503 BodyNotJSON ∅ ∅).
  - reflexivity.
  - lia.
Defined.

(* ------------------------------------------------------------------ *)
(** ** C6: optional manifest fields *)

Lemma create_mip_json_lookups (path : string) (pn deps syms ver : jvalue) :
  let m := (create_mip_json path pn deps syms ver).2 in
  m !! "package" = (match pn with JNull => None | v => Some v end)
  /\ m !! "version" = (match ver with JNull => None | v => Some v end)
  /\ m !! "license" = None
  /\ m !! "usage_examples" = None.
Proof.
  destruct pn, ver; simpl; repeat split; reflexivity.
Qed.

Lemma PackagePreparer_create_mip_json_shape (yaml build : gmap string jvalue)
    (syms : list string) (ts : string) (dur : jvalue) (fname : string) :
  match PackagePreparer_create_mip_json yaml build syms ts dur fname with
  | Ok m =>
      m !! "license" = Some (py_get_default yaml "license" (JStr ""))
      /\ m !! "usage_examples" = Some (py_get_default yaml "usage_examples" (JList []))
      /\ m !! "homepage" = Some (py_get_default yaml "homepage" (JStr ""))
      /\ m !! "repository" = Some (py_get_default yaml "repository" (JStr ""))
      /\ m !! "version" = yaml !! "version"
  | Raise e => e = KeyError
  end.
Proof.
  unfold PackagePreparer_create_mip_json, py_index, mbind, result_bind.
  destruct (yaml !! "name"); [|reflexivity].
  destruct (yaml !! "description"); [|reflexivity].
  destruct (yaml !! "version"); [|reflexivity].
  destruct (yaml !! "release_number"); [|reflexivity].
  destruct (build !! "matlab_tag"); [|reflexivity].
  destruct (build !! "abi_tag"); [|reflexivity].
  destruct (build !! "platform_tag"); [|reflexivity].
  repeat split; reflexivity.
Qed.

Lemma PackagePreparer_create_mip_json_no_version (yaml build : gmap string jvalue)
    (syms : list string) (ts : string) (dur : jvalue) (fname : string) :
  PackagePreparer_create_mip_json (delete "version" yaml) build syms ts dur fname = Raise KeyError.
Proof.
  unfold PackagePreparer_create_mip_json, py_index, mbind, result_bind.
  destruct (delete "version" yaml !! "name"); [|reflexivity].
  destruct (delete "version" yaml !! "description"); [|reflexivity].
  by rewrite lookup_delete_eq.
Qed.

Lemma PackagePreparer_create_mip_json_keys (yaml build : gmap string jvalue)
    (syms : list string) (ts : string) (dur : jvalue) (fname : string) :
  match PackagePreparer_create_mip_json yaml build syms ts dur fname with
  | Ok m =>
      (forall k, is_Some (m !! k) <->
         k ∈ ["name"; "description"; "version"; "release_number"; "dependencies";
              "homepage"; "repository"; "license"; "matlab_tag"; "abi_tag";
              "platform_tag"; "usage_examples"; "exposed_symbols"; "timestamp";
              "prepare_duration"; "compile_duration"; "mhl_url"])
      /\ m !! "name" = yaml !! "name"
      /\ m !! "description" = yaml !! "description"
      /\ m !! "release_number" = yaml !! "release_number"
  | Raise _ => True
  end.
Proof.
  unfold PackagePreparer_create_mip_json, py_index, mbind, result_bind, mret, result_ret.
  destruct (yaml !! "name"); [|exact I].
  destruct (yaml !! "description"); [|exact I].
  destruct (yaml !! "version"); [|exact I].
  destruct (yaml !! "release_number"); [|exact I].
  destruct (build !! "matlab_tag"); [|exact I].
  destruct (build !! "abi_tag"); [|exact I].
  destruct (build !! "platform_tag"); [|exact I].
  split; [|split; [|split]]; try reflexivity.
  intros k. rewrite <- elem_of_dom, dom_list_to_map_L, elem_of_list_to_set. reflexivity.
Qed.

Lemma PackagePreparer_create_mip_json_ok_iff (yaml build : gmap string jvalue)
    (syms : list string) (ts : string) (dur : jvalue) (fname : string) :
  (exists m, PackagePreparer_create_mip_json yaml build syms ts dur fname = Ok m)
  <-> (forall k, k ∈ ["name"; "description"; "version"; "release_number"] ->
                 is_Some (yaml !! k))
      /\ (forall k, k ∈ ["matlab_tag"; "abi_tag"; "platform_tag"] -> is_Some (build !! k)).
Proof.
  unfold PackagePreparer_create_mip_json, py_index, mbind, result_bind, mret, result_ret.
  split.
  - intros [m Hm].
    destruct (yaml !! "name") eqn:E1; [|discriminate].
    destruct (yaml !! "description") eqn:E2; [|discriminate].
    destruct (yaml !! "version") eqn:E3; [|discriminate].
    destruct (yaml !! "release_number") eqn:E4; [|discriminate].
    destruct (build !! "matlab_tag") eqn:E5; [|discriminate].
    destruct (build !! "abi_tag") eqn:E6; [|discriminate].
    destruct (build !! "platform_tag") eqn:E7; [|discriminate].
    split; intros k Hk;
      repeat (apply elem_of_cons in Hk as [->|Hk]; [eexists; eassumption|]);
      by apply elem_of_nil in Hk.
  - intros [Hy Hb].
    destruct (Hy "name" ltac:(set_solver)) as [v1 ->].
    destruct (Hy "description" ltac:(set_solver)) as [v2 ->].
    destruct (Hy "version" ltac:(set_solver)) as [v3 ->].
    destruct (Hy "release_number" ltac:(set_solver)) as [v4 ->].
    destruct (Hb "matlab_tag" ltac:(set_solver)) as [v5 ->].
    destruct (Hb "abi_tag" ltac:(set_solver)) as [v6 ->].
    destruct (Hb "platform_tag" ltac:(set_solver)) as [v7 ->].
    eexists; reflexivity.
Qed.

Lemma PackagePreparer_create_mip_json_missing_required (yaml build : gmap string jvalue)
    (syms : list string) (ts : string) (dur : jvalue) (fname : string) (k : string) :
  k ∈ ["name"; "description"; "version"; "release_number"] ->
  PackagePreparer_create_mip_json (delete k yaml) build syms ts dur fname = Raise KeyError.
Proof.
  intros Hk.
  pose proof (PackagePreparer_create_mip_json_shape (delete k yaml) build syms ts dur fname) as Hs.
  destruct (PackagePreparer_create_mip_json (delete k yaml) build syms ts dur fname) as [m|e] eqn:E.
  - exfalso. destruct (proj1 (PackagePreparer_create_mip_json_ok_iff (delete k yaml) build
                                syms ts dur fname) (ex_intro _ m E)) as [Hy _].
    destruct (Hy k Hk) as [v Hv]. by rewrite lookup_delete_eq in Hv.
  - by rewrite Hs.
Qed.

(** C6 (counterexample). The orchestrator's manifest writer, given a
    [prepare.yaml] without [license] and [usage_examples], writes both keys,
    with the placeholders [""] and [[]]. *)
Lemma manifest_writes_placeholders :
  match PackagePreparer_create_mip_json
          (list_to_map [("name", JStr "p"); ("description", JStr "d");
                        ("version", JStr "1.0"); ("release_number", JInt 1)])
          (list_to_map [("matlab_tag", JStr "any"); ("abi_tag", JStr "none");
                        ("platform_tag", JStr "any")])
          [] "2026-01-01T00:00:00" (JInt 0) "p-1.0-any-none-any.mhl" with
  | Ok m => m !! "license" = Some (JStr "") /\ m !! "usage_examples" = Some (JList [])
  | Raise _ => False
  end.
Proof. split; reflexivity. Qed.

(** C6 (amended). Only the helper [create_mip_json] omits keys: ["package"]
    and ["version"] are present exactly when the argument is not [None],
    and ["license"] and ["usage_examples"] are never written. The
    orchestrator's writer always writes every key (exactly the seventeen
    keys of its dict literal), with [""] for an absent license, homepage
    or repository and [[]] for absent usage examples. It raises only
    [KeyError], and does so exactly when one of the required fields
    (name, description, version and release_number of [prepare.yaml], and
    the three tags of the build entry) is absent: in particular a
    [prepare.yaml] without name, description, version or release_number
    makes it raise [KeyError]. *)
Theorem manifest_writers_optional_fields :
  (forall (path : string) (pn deps syms ver : jvalue),
     let m := (create_mip_json path pn deps syms ver).2 in
     m !! "package" = (match pn with JNull => None | v => Some v end)
     /\ m !! "version" = (match ver with JNull => None | v => Some v end)
     /\ m !! "license" = None
     /\ m !! "usage_examples" = None)
  /\ (forall (yaml build : gmap string jvalue) (syms : list string) (ts : string)
             (dur : jvalue) (fname : string),
        match PackagePreparer_create_mip_json yaml build syms ts dur fname with
        | Ok m =>
            m !! "license" = Some (py_get_default yaml "license" (JStr ""))
            /\ m !! "usage_examples" = Some (py_get_default yaml "usage_examples" (JList []))
            /\ m !! "homepage" = Some (py_get_default yaml "homepage" (JStr ""))
            /\ m !! "repository" = Some (py_get_default yaml "repository" (JStr ""))
            /\ m !! "version" = yaml !! "version"
        | Raise e => e = KeyError
        end)
  /\ (forall (yaml build : gmap string jvalue) (syms : list string) (ts : string)
             (dur : jvalue) (fname : string),
        PackagePreparer_create_mip_json (delete "version" yaml) build syms ts dur fname
        = Raise KeyError)
  /\ (forall (yaml build : gmap string jvalue) (syms : list string) (ts : string)
             (dur : jvalue) (fname : string),
        match PackagePreparer_create_mip_json yaml build syms ts dur fname with
        | Ok m =>
            (forall k, is_Some (m !! k) <->
               k ∈ ["name"; "description"; "version"; "release_number"; "dependencies";
                    "homepage"; "repository"; "license"; "matlab_tag"; "abi_tag";
                    "platform_tag"; "usage_examples"; "exposed_symbols"; "timestamp";
                    "prepare_duration"; "compile_duration"; "mhl_url"])
            /\ m !! "name" = yaml !! "name"
            /\ m !! "description" = yaml !! "description"
            /\ m !! "release_number" = yaml !! "release_number"
        | Raise _ => True
        end)
  /\ (forall (yaml build : gmap string jvalue) (syms : list string) (ts : string)
             (dur : jvalue) (fname : string),
        (exists m, PackagePreparer_create_mip_json yaml build syms ts dur fname = Ok m)
        <-> (forall k, k ∈ ["name"; "description"; "version"; "release_number"] ->
                       is_Some (yaml !! k))
            /\ (forall k, k ∈ ["matlab_tag"; "abi_tag"; "platform_tag"] ->
                          is_Some (build !! k)))
  /\ (forall (yaml build : gmap string jvalue) (syms : list string) (ts : string)
             (dur : jvalue) (fname : string) (k : string),
        k ∈ ["name"; "description"; "version"; "release_number"] ->
        PackagePreparer_create_mip_json (delete k yaml) build syms ts dur fname
        = Raise KeyError).
Proof.
  split; [|split; [|split; [|split; [|split]]]].
  - apply create_mip_json_lookups.
  - apply PackagePreparer_create_mip_json_shape.
  - apply PackagePreparer_create_mip_json_no_version.
  - apply PackagePreparer_create_mip_json_keys.
  - apply PackagePreparer_create_mip_json_ok_iff.
  - apply PackagePreparer_create_mip_json_missing_required.
Qed.

(* ------------------------------------------------------------------ *)
(** ** C7: the temporary archive *)








(** A valid archive whose extraction raises: the members ['a'] and
    ['a/b'] (the second needs ['a'] to be a directory, but the first
    made it a file). [NotADirectoryError] propagates and
    [temp_download.zip] stays, next to the extracted ['a']. *)
Example zip_left_behind_on_failed_extraction :
  download_and_extract_zip (HttpResponse 200 (ValidZip [("a", "x"); ("a/b", "y")])) [] ∅
  = ({[ ["temp_download.zip"] := BArchive (ValidZip [("a", "x"); ("a/b", "y")]);
        ["a"] := BText "x" ]}, Raise NotADirectoryError).
Proof. vm_compute. reflexivity. Qed.

(** A member extracted over the archive itself: [open] truncates
    [temp_download.zip] before the member is read, the copy raises
    [EOFError], and the (now empty) file stays. *)
Example zip_member_over_archive :
  download_and_extract_zip (HttpResponse 200 (ValidZip [("temp_download.zip", "x")])) [] ∅
  = ({[ ["temp_download.zip"] := BText "" ]}, Raise EOFError).
Proof. vm_compute. reflexivity. Qed.

(** A successful extraction into [pkg]: member names are cleaned up
    (['./'], ['..'] and a leading ['/'] dropped), missing directories
    are made, and the archive is removed. *)
Example zip_extracted_and_removed :
  download_and_extract_zip
    (HttpResponse 200 (ValidZip [("./a/", ""); ("../a/f.m", "x"); ("/b/g.m", "y")])) ["pkg"] ∅
  = ({[ ["pkg"] := BDir; ["pkg"; "a"] := BDir; ["pkg"; "a"; "f.m"] := BText "x";
        ["pkg"; "b"] := BDir; ["pkg"; "b"; "g.m"] := BText "y" ]}, Ok tt).
Proof. vm_compute. reflexivity. Qed.


(* ------------------------------------------------------------------ *)
(** ** C8: load and unload order *)

Example render_subdir_assign :
  render_stmt (SAssign ("tools" ++ "_path") (EFullfile ("pkg" ++ "_path") "tools"))
  = "tools_path = fullfile(pkg_path, 'tools');".
Proof. reflexivity. Qed.

Lemma append_inj_r (s p t : string) : (s ++ t)%string = (p ++ t)%string -> s = p.
Proof.
  intros H. apply (f_equal chars) in H. rewrite !chars_append in H.
  apply app_inv_tail in H.
  rewrite <- (string_of_list_ascii_of_string s), <- (string_of_list_ascii_of_string p).
  unfold chars in H. by rewrite H.
Qed.

Ltac run_subdir_step pkg s Hs :=
  cbn [run_script flat_map app eval_expr];
  match goal with
  | Henv : ?env !! _ = Some pkg |- _ =>
      rewrite Henv; cbn [mbind option_bind];
      rewrite lookup_insert_eq; cbn [mbind option_bind]
  end.

Lemma run_load_subdirs (pkg : string) (subs : list string) :
  pkg ∉ subs ->
  forall (env : gmap string string) (rest : list mstmt) (R : list path_op),
  env !! (pkg ++ "_path") = Some pkg ->
  (forall env', env' !! (pkg ++ "_path") = Some pkg -> run_script env' rest = Some R) ->
  run_script env
    (flat_map (fun subdir =>
       [SComment ("Add " ++ pkg ++ "/" ++ subdir ++ " to the path");
        SAssign (subdir ++ "_path") (EFullfile (pkg ++ "_path") subdir);
        SAddpath (subdir ++ "_path")]) subs ++ rest)%list
  = Some (map (fun s => PAdd (pkg ++ "/" ++ s)) subs ++ R)%list.
Proof.
  induction subs as [|s subs IH]; intros Hp env rest R Henv Hrest; [simpl; by apply Hrest|].
  apply not_elem_of_cons in Hp as [Hs Hp].
  run_subdir_step pkg s Hs.
  rewrite (IH Hp _ rest R); [reflexivity| |exact Hrest].
  rewrite lookup_insert_ne; [exact Henv|]. intros E. apply append_inj_r in E. congruence.
Qed.

Lemma run_unload_subdirs (pkg : string) (subs : list string) :
  pkg ∉ subs ->
  forall (env : gmap string string) (rest : list mstmt) (R : list path_op),
  env !! (pkg ++ "_path") = Some pkg ->
  (forall env', env' !! (pkg ++ "_path") = Some pkg -> run_script env' rest = Some R) ->
  run_script env
    (flat_map (fun subdir =>
       [SComment ("Remove " ++ pkg ++ "/" ++ subdir ++ " from the path");
        SAssign (subdir ++ "_path") (EFullfile (pkg ++ "_path") subdir);
        SRmpath (subdir ++ "_path")]) subs ++ rest)%list
  = Some (map (fun s => PRm (pkg ++ "/" ++ s)) subs ++ R)%list.
Proof.
  induction subs as [|s subs IH]; intros Hp env rest R Henv Hrest; [simpl; by apply Hrest|].
  apply not_elem_of_cons in Hp as [Hs Hp].
  run_subdir_step pkg s Hs.
  rewrite (IH Hp _ rest R); [reflexivity| |exact Hrest].
  rewrite lookup_insert_ne; [exact Henv|]. intros E. apply append_inj_r in E. congruence.
Qed.

(** When no subdirectory is named like the package, the load script adds
    the package directory and then each subdirectory in listed order, and
    the unload script removes the subdirectories in reverse order and the
    package directory last (also for an empty or absent list). *)
Lemma load_unload_order_distinct (pkg : string) (subdirs : option (list string))
    (Hp : pkg ∉ subdir_list subdirs) :
  run_script ∅ (load_script pkg subdirs)
  = Some (PAdd pkg :: map (fun s => PAdd (pkg ++ "/" ++ s)) (subdir_list subdirs))
  /\ run_script ∅ (unload_script pkg subdirs)
     = Some (map (fun s => PRm (pkg ++ "/" ++ s)) (rev (subdir_list subdirs)) ++ [PRm pkg])%list.
Proof.
  destruct subdirs as [[|s0 subs]|];
    [| |unfold load_script, unload_script; simpl; rewrite lookup_insert_eq; split; reflexivity].
  { unfold load_script, unload_script; simpl. rewrite lookup_insert_eq. split; reflexivity. }
  assert (Hmain : <[pkg ++ "_path" := pkg]> (∅ : gmap string string) !! (pkg ++ "_path") = Some pkg)
    by apply lookup_insert_eq.
  unfold load_script, unload_script. cbn [truthy subdir_list] in Hp |- *.
  split.
  - rewrite <- (app_nil_r (flat_map _ (s0 :: subs))). cbn [app].
    cbn [run_script eval_expr mbind option_bind]. rewrite Hmain. cbn [mbind option_bind].
    rewrite (run_load_subdirs pkg (s0 :: subs) Hp _ [] [] Hmain); [simpl; by rewrite app_nil_r|].
    intros env' _. reflexivity.
  - cbn [app run_script eval_expr mbind option_bind].
    assert (Hr : pkg ∉ rev (s0 :: subs)).
    { intros Hin. apply Hp. apply list_elem_of_In in Hin. apply in_rev in Hin.
      by apply list_elem_of_In. }
    rewrite (run_unload_subdirs pkg (rev (s0 :: subs)) Hr _ [SRmpath (pkg ++ "_path")] [PRm pkg]
               Hmain); [reflexivity|].
    intros env' Henv'. cbn [run_script]. rewrite Henv'. reflexivity.
Qed.

(** C8 (code_bug). The script variable of a subdirectory named like the
    package is the package's own variable [x_path]: with package ["x"] and
    subdirectories [["x"; "y"]], the load script adds [x], [x/x] and
    [x/x/y] (not [x/y]), and the unload script removes [x/y], [x/x] and
    [x/x] again, never the package directory [x]. *)
Theorem load_unload_name_clash :
  match create_load_and_unload_scripts Missing "x" (Some ["x"; "y"]) false with
  | Ok (load, unload) =>
      run_script ∅ load = Some [PAdd "x"; PAdd "x/x"; PAdd "x/x/y"]
      /\ run_script ∅ unload = Some [PRm "x/y"; PRm "x/x"; PRm "x/x"]
  | Raise _ => False
  end.
Proof. split; reflexivity. Qed.

(* ================================================================== *)
(** * Further properties of the code *)

(* ------------------------------------------------------------------ *)
(** ** Trees *)

Lemma walk_dirs_node_walk (excl : list string) (n : node) :
  forall p, walk_node excl p n
            = map (fun x => (x.1, level_symbols excl x.2)) (walk_dirs_node excl p n).
Proof.
  induction n as [s|d ch IH] using node_ind'; intros p; [reflexivity|].
  cbn [walk_node walk_dirs_node map fst snd]. f_equal.
  rewrite concat_map, map_map. f_equal. apply map_ext_in. intros c Hc.
  destruct (excluded excl (node_name c)); [reflexivity|].
  rewrite Forall_forall in IH. apply IH. by apply list_elem_of_In.
Qed.

Lemma walk_dirs_walk (excl : list string) (ch : list node) :
  walk excl ch = map (fun x => (x.1, level_symbols excl x.2)) (walk_dirs excl ch).
Proof.
  unfold walk, walk_dirs. cbn [map fst snd]. f_equal.
  rewrite concat_map, map_map. f_equal. apply map_ext. intros c.
  destruct (excluded excl (node_name c)); [reflexivity|]. apply walk_dirs_node_walk.
Qed.

Lemma walk_dirs_paths (excl : list string) (ch : list node) (x : list string * list node) :
  x ∈ walk_dirs excl ch -> forall c, c ∈ x.1 -> c ∉ excl.
Proof.
  intros Hx c Hc. unfold walk_dirs in Hx.
  apply elem_of_cons in Hx as [->|Hx]; [by apply not_elem_of_nil in Hc|].
  apply list_elem_of_In, in_concat in Hx as [l [Hl Hxl]].
  apply in_map_iff in Hl as [n [<- Hn]].
  destruct (excluded excl (node_name n)) eqn:En; [done|].
  apply (in_map (fun x => (x.1, level_symbols excl x.2))) in Hxl.
  rewrite <- walk_dirs_node_walk in Hxl.
  eapply (walk_node_paths excl n []); [| exact En | by apply list_elem_of_In | exact Hc].
  intros c' Hc'. by apply not_elem_of_nil in Hc'.
Qed.

Definition dir_files (x : list string * list node) : list string * list string :=
  (x.1, file_names x.2).

Lemma map_dirs_nil (p : list string) (l : list node) :
  map (fun c => map dir_files (if excluded [] (node_name c) then [] else walk_dirs_node [] p c)) l
  = map (fun c => map dir_files (walk_dirs_node [] p c)) l.
Proof. apply map_ext. intros c. by rewrite excluded_nil. Qed.

Lemma walk_dirs_children_prune (excl : list string) (p : list string) (ch : list node) :
  Forall (fun n => forall p, map dir_files (walk_dirs_node excl p n)
                             = map dir_files (walk_dirs_node [] p (prune_node excl n))) ch ->
  map dir_files (concat (map (fun c => if excluded excl (node_name c) then []
                                       else walk_dirs_node excl p c) ch))
  = map dir_files (concat (map (fun c => if excluded [] (node_name c) then []
                                         else walk_dirs_node [] p c) (prune_children excl ch))).
Proof.
  intros H. rewrite Forall_forall in H. rewrite !concat_map, !map_map, map_dirs_nil.
  transitivity (concat (map (fun c => if negb (excluded_dir excl c)
                 then map dir_files (walk_dirs_node [] p (prune_node excl c)) else []) ch)).
  - f_equal. apply map_ext_in. intros [s|e c'] Hc; cbn [node_name excluded_dir].
    + destruct (excluded excl s); reflexivity.
    + destruct (excluded excl e); [reflexivity|]. cbn [negb]. apply H.
      by apply list_elem_of_In.
  - rewrite concat_map_filter. unfold prune_children. by rewrite map_map.
Qed.

Lemma walk_dirs_node_prune (excl : list string) (n : node) :
  forall p, map dir_files (walk_dirs_node excl p n)
            = map dir_files (walk_dirs_node [] p (prune_node excl n)).
Proof.
  induction n as [s|d ch IH] using node_ind'; intros p; [reflexivity|].
  rewrite prune_node_dir. cbn [walk_dirs_node map]. unfold dir_files at 1 3. cbn [fst snd].
  rewrite file_names_prune. f_equal. by apply walk_dirs_children_prune.
Qed.

Lemma walk_dirs_prune (excl : list string) (ch : list node) :
  map dir_files (walk_dirs excl ch) = map dir_files (walk_dirs [] (prune_children excl ch)).
Proof.
  unfold walk_dirs. cbn [map]. unfold dir_files at 1 3. cbn [fst snd].
  rewrite file_names_prune. f_equal. apply walk_dirs_children_prune.
  apply Forall_forall. intros n _. apply walk_dirs_node_prune.
Qed.

Lemma flat_map_map {A B C} (f : B -> list C) (g : A -> B) (l : list A) :
  flat_map f (map g l) = flat_map (fun x => f (g x)) l.
Proof. induction l as [|x l IH]; simpl; [done|]. by rewrite IH. Qed.

(** The body of generate_recursive_paths reads only the relative path
    and the file names of each visited directory. *)
Lemma generate_recursive_paths_files (ch : list node) (base_name : string) (excl : list string) :
  prepare_packages.generate_recursive_paths (Directory ch) base_name excl
  = sorted (flat_map (fun x => if existsb (fun f => endswith f ".m") x.2
                               then [join_path (base_name :: x.1)] else [])
                     (map dir_files (walk_dirs excl ch))).
Proof.
  unfold prepare_packages.generate_recursive_paths. f_equal.
  rewrite flat_map_map. apply flat_map_ext. intros [rel entries].
  reflexivity.
Qed.

Lemma string_length_append (a b : string) :
  String.length (a ++ b) = (String.length a + String.length b)%nat.
Proof. induction a as [|c a IH]; simpl; [done|]. by rewrite IH. Qed.

Lemma join_path_fold_length (rest : list string) (acc : string) :
  (String.length acc <= String.length (fold_left (fun acc q => acc ++ "/" ++ q) rest acc))%nat.
Proof.
  revert acc. induction rest as [|q rest IH]; intros acc; simpl; [lia|].
  etransitivity; [|apply IH]. rewrite !string_length_append. simpl. lia.
Qed.

Lemma join_path_longer (b : string) (rel : list string) :
  rel <> [] -> (String.length b < String.length (join_path (b :: rel)))%nat.
Proof.
  destruct rel as [|r rest]; [done|]. intros _. simpl.
  eapply Nat.lt_le_trans; [|apply join_path_fold_length].
  rewrite !string_length_append. simpl. lia.
Qed.

Lemma walk_dirs_node_nonempty (excl : list string) (n : node) :
  forall p y, In y (walk_dirs_node excl p n) -> y.1 <> [].
Proof.
  induction n as [s|d ch IH] using node_ind'; intros p y Hy; [done|].
  simpl in Hy. destruct Hy as [<-|Hy]; [simpl; intros E; by apply app_nil in E as [_ ?]|].
  apply in_concat in Hy as [l [Hl Hyl]]. apply in_map_iff in Hl as [c [<- Hc]].
  destruct (excluded excl (node_name c)); [done|].
  rewrite Forall_forall in IH. eapply IH; [by apply list_elem_of_In|exact Hyl].
Qed.

Lemma in_sorted (x : string) (l : list string) : In x (sorted l) <-> In x l.
Proof.
  split; intros H.
  - eapply Permutation_in; [apply sorted_perm|exact H].
  - eapply Permutation_in; [symmetry; apply sorted_perm|exact H].
Qed.

(** X: generate_recursive_paths. Its result is sorted ascending; it is
    empty for a path that does not exist or is a regular file; and the
    base directory itself ([base_name]) is listed exactly when it holds a
    [.m] file directly, whatever its subdirectories hold. *)
Theorem generate_recursive_paths_sorted_and_root :
  (forall (st : path_state) (b : string) (excl : list string),
     Sorted str_le (prepare_packages.generate_recursive_paths st b excl))
  /\ (forall (b : string) (excl : list string),
        prepare_packages.generate_recursive_paths Missing b excl = []
        /\ prepare_packages.generate_recursive_paths RegularFile b excl = [])
  /\ (forall (ch : list node) (b : string) (excl : list string),
        In b (prepare_packages.generate_recursive_paths (Directory ch) b excl)
        <-> existsb (fun f => endswith f ".m") (file_names ch) = true).
Proof.
  split; [|split; [done|]].
  - intros [| |ch] b excl; try constructor. apply sorted_Sorted.
  - intros ch b excl. rewrite generate_recursive_paths_files, in_sorted. split.
    + intros H. apply in_flat_map in H as [x [Hx Hbx]].
      unfold walk_dirs in Hx. cbn [map] in Hx. destruct Hx as [<-|Hx].
      * unfold dir_files in Hbx. cbn [fst snd] in Hbx.
        destruct (existsb _ (file_names ch)); [reflexivity|destruct Hbx].
      * exfalso. apply in_map_iff in Hx as [y [<- Hy]].
        apply in_concat in Hy as [l [Hl Hyl]]. apply in_map_iff in Hl as [c [<- Hc]].
        destruct (excluded excl (node_name c)); [done|].
        apply walk_dirs_node_nonempty in Hyl.
        unfold dir_files in Hbx. cbn [fst snd] in Hbx.
        destruct (existsb _ _); [|done].
        destruct Hbx as [Hbx|[]]. apply join_path_longer with (b := b) in Hyl.
        rewrite Hbx in Hyl. lia.
    + intros H. apply in_flat_map. exists ([], file_names ch). split; [left; reflexivity|].
      cbn [fst snd]. rewrite H. left. reflexivity.
Qed.

(** X: generate_recursive_paths and the exclusion list. It returns what
    it returns with no exclusions on the tree from which every directory
    named in [exclude_dirs] has been removed, with everything beneath it;
    and every path it returns is [base_name] joined with the components of
    a directory below the base none of which is excluded. *)
Theorem generate_recursive_paths_prunes :
  (forall (ch : list node) (b : string) (excl : list string),
     prepare_packages.generate_recursive_paths (Directory ch) b excl
     = prepare_packages.generate_recursive_paths (Directory (prune_children excl ch)) b [])
  /\ (forall (ch : list node) (b : string) (excl : list string) (p : string),
        In p (prepare_packages.generate_recursive_paths (Directory ch) b excl) ->
        exists rel, p = join_path (b :: rel) /\ forall c, c ∈ rel -> c ∉ excl).
Proof.
  split.
  - intros ch b excl. by rewrite !generate_recursive_paths_files, walk_dirs_prune.
  - intros ch b excl p. rewrite generate_recursive_paths_files, in_sorted.
    intros H. apply in_flat_map in H as [x [Hx Hpx]].
    apply in_map_iff in Hx as [y [<- Hy]]. unfold dir_files in Hpx. cbn [fst snd] in Hpx.
    destruct (existsb _ _); [|done]. destruct Hpx as [<-|[]].
    exists y.1. split; [reflexivity|]. apply walk_dirs_paths with ch.
    by apply list_elem_of_In.
Qed.

(* ------------------------------------------------------------------ *)
(** ** Paths of a pruned tree *)

(** A path none of whose components is excluded. *)
Definition outside (excl : list string) (path : list string) : bool :=
  forallb (fun c => negb (excluded excl c)) path.

Lemma filter_flat_map {A B} (P : B -> bool) (f : A -> list B) (l : list A) :
  List.filter P (flat_map f l) = flat_map (fun x => List.filter P (f x)) l.
Proof. induction l as [|x l IH]; simpl; [done|]. by rewrite List.filter_app, IH. Qed.

Lemma flat_map_ext_Forall {A B} (f g : A -> list B) (l : list A) :
  Forall (fun x => f x = g x) l -> flat_map f l = flat_map g l.
Proof. induction 1 as [|x l Hx _ IH]; simpl; [done|]. by rewrite Hx, IH. Qed.

Lemma flat_map_flat_map {A B C} (f : B -> list C) (g : A -> list B) (l : list A) :
  flat_map f (flat_map g l) = flat_map (fun x => flat_map f (g x)) l.
Proof. induction l as [|x l IH]; simpl; [done|]. by rewrite flat_map_app, IH. Qed.

Lemma filter_none {A} (P : A -> bool) (l : list A) :
  (forall x, In x l -> P x = false) -> List.filter P l = [].
Proof.
  induction l as [|x l IH]; intros H; simpl; [done|].
  rewrite H; [|left; done]. apply IH. intros y Hy. apply H. by right.
Qed.

Lemma flat_map_prune_children {B} (f : node -> list B) (excl : list string) (ch : list node) :
  flat_map f (prune_children excl ch)
  = flat_map (fun c => if excluded_dir excl c then [] else f (prune_node excl c)) ch.
Proof.
  unfold prune_children. induction ch as [|c ch IH]; simpl; [done|].
  destruct (excluded_dir excl c); simpl; by rewrite IH.
Qed.

Lemma node_files_prefix (n : node) :
  forall q x, In x (node_files q n) -> exists r, x.1 = (q ++ r)%list.
Proof.
  induction n as [s|d ch IH] using node_ind'; intros q x Hx; simpl in Hx.
  - destruct Hx as [<-|[]]. exists []. by rewrite app_nil_r.
  - apply in_flat_map in Hx as [c [Hc Hxc]]. rewrite Forall_forall in IH.
    destruct (IH c ltac:(by apply list_elem_of_In) _ _ Hxc) as [r Hr].
    exists (d :: r). by rewrite Hr, <- app_assoc.
Qed.

Lemma node_dirs_prefix (n : node) :
  forall q y, In y (node_dirs q n) -> exists r, y = (q ++ r)%list.
Proof.
  induction n as [s|d ch IH] using node_ind'; intros q y Hy; simpl in Hy; [done|].
  destruct Hy as [<-|Hy]; [by exists [d]|].
  apply in_flat_map in Hy as [c [Hc Hyc]]. rewrite Forall_forall in IH.
  destruct (IH c ltac:(by apply list_elem_of_In) _ _ Hyc) as [r Hr].
  exists (d :: r). by rewrite Hr, <- app_assoc.
Qed.

Lemma outside_app (excl a b : list string) :
  outside excl (a ++ b) = outside excl a && outside excl b.
Proof. apply forallb_app. Qed.

Lemma outside_excluded (excl p r : list string) (d : string) :
  excluded excl d = true -> outside excl ((p ++ [d]) ++ r) = false.
Proof.
  intros Hd. rewrite !outside_app. unfold outside at 2. cbn [forallb]. rewrite Hd.
  by rewrite andb_false_r.
Qed.

Lemma node_files_prune (excl : list string) (n : node) :
  forall p, outside excl p = true ->
  (if excluded_dir excl n then [] else node_files p (prune_node excl n))
  = List.filter (fun x => outside excl x.1) (node_files p n).
Proof.
  induction n as [s|d ch IH] using node_ind'; intros p Hp.
  - change (prune_node excl (File s)) with (File s). cbn [excluded_dir node_files List.filter fst]. by rewrite Hp.
  - cbn [excluded_dir]. destruct (excluded excl d) eqn:Ed.
    + symmetry. apply filter_none. intros x Hx. cbn [node_files] in Hx.
      apply in_flat_map in Hx as [c [_ Hxc]].
      destruct (node_files_prefix c _ _ Hxc) as [r ->]. by apply outside_excluded.
    + rewrite prune_node_dir. cbn [node_files].
      rewrite flat_map_prune_children, filter_flat_map.
      apply flat_map_ext_Forall. eapply Forall_impl; [exact IH|]. intros c Hc.
      apply Hc. rewrite outside_app, Hp. unfold outside. cbn. by rewrite Ed.
Qed.

Lemma node_dirs_prune (excl : list string) (n : node) :
  forall p, outside excl p = true ->
  (if excluded_dir excl n then [] else node_dirs p (prune_node excl n))
  = List.filter (outside excl) (node_dirs p n).
Proof.
  induction n as [s|d ch IH] using node_ind'; intros p Hp.
  - reflexivity.
  - cbn [excluded_dir]. destruct (excluded excl d) eqn:Ed.
    + symmetry. apply filter_none. intros y Hy. cbn [node_dirs] in Hy.
      destruct Hy as [<-|Hy].
      * rewrite <- (app_nil_r (p ++ [d])). by apply outside_excluded.
      * apply in_flat_map in Hy as [c [_ Hyc]].
        destruct (node_dirs_prefix c _ _ Hyc) as [r ->]. by apply outside_excluded.
    + assert (Hpd : outside excl (p ++ [d]) = true).
      { rewrite outside_app, Hp. unfold outside. cbn. by rewrite Ed. }
      rewrite prune_node_dir. cbn [node_dirs List.filter]. rewrite Hpd. f_equal.
      rewrite flat_map_prune_children, filter_flat_map.
      apply flat_map_ext_Forall. eapply Forall_impl; [exact IH|]. intros c Hc.
      by apply Hc.
Qed.

Lemma tree_files_prune (excl : list string) (ch : list node) :
  tree_files (prune_children excl ch)
  = List.filter (fun x => outside excl x.1) (tree_files ch).
Proof.
  unfold tree_files. rewrite flat_map_prune_children, filter_flat_map.
  apply flat_map_ext. intros c. by apply node_files_prune.
Qed.

Lemma tree_dirs_prune (excl : list string) (ch : list node) :
  tree_dirs (prune_children excl ch) = List.filter (outside excl) (tree_dirs ch).
Proof.
  unfold tree_dirs. rewrite flat_map_prune_children, filter_flat_map.
  apply flat_map_ext. intros c. by apply node_dirs_prune.
Qed.

(* ------------------------------------------------------------------ *)
(** ** Removing .git directories *)

Lemma is_git_dir_excluded (c : node) : is_git_dir c = excluded_dir [".git"] c.
Proof.
  destruct c as [s|d ch]; [reflexivity|]. cbn [is_git_dir excluded_dir]. unfold excluded.
  destruct (String.eqb_spec d ".git") as [->|Hne].
  - symmetry. apply bool_decide_eq_true_2. by left.
  - symmetry. apply bool_decide_eq_false_2. intros H.
    by apply list_elem_of_singleton in H.
Qed.

Lemma remove_git_node_dir (d : string) (ch : list node) :
  remove_git_node (Dir d ch) = Dir d (remove_git_dirs ch).
Proof.
  simpl. f_equal. unfold remove_git_dirs.
  induction ch as [|c ch IH]; simpl; [done|]. destruct (is_git_dir c); simpl; by rewrite IH.
Qed.

Lemma remove_git_node_prune (n : node) : remove_git_node n = prune_node [".git"] n.
Proof.
  induction n as [s|d ch IH] using node_ind'; [reflexivity|].
  rewrite remove_git_node_dir, prune_node_dir. f_equal.
  unfold remove_git_dirs, prune_children.
  induction IH as [|c ch Hc _ IHch]; simpl; [done|].
  rewrite is_git_dir_excluded. destruct (excluded_dir [".git"] c); simpl; [done|].
  by rewrite Hc, IHch.
Qed.

Lemma remove_git_dirs_prune (ch : list node) : remove_git_dirs ch = prune_children [".git"] ch.
Proof.
  unfold remove_git_dirs, prune_children.
  induction ch as [|c ch IH]; simpl; [done|].
  rewrite is_git_dir_excluded. destruct (excluded_dir [".git"] c); simpl; [done|].
  by rewrite remove_git_node_prune, IH.
Qed.

Lemma outside_git (p : list string) :
  outside [".git"] p = negb (existsb (String.eqb ".git") p).
Proof.
  induction p as [|c p IH]; [done|]. unfold outside in *. cbn [forallb existsb].
  rewrite IH. pose proof (is_git_dir_excluded (Dir c [])) as H. cbn in H.
  rewrite <- H, (String.eqb_sym c ".git"). by destruct (".git" =? c)%string.
Qed.

(** X: build_helpers.clone_repository_and_remove_git and
    prepare_packages.clone_git_repository. After the clone, the regular
    files left are exactly those with no directory named [.git] on their
    path, and the directories left are exactly those with no [.git]
    component: every [.git] directory at any depth is gone with all it
    holds, and nothing else is touched (a regular file named [.git] is
    kept). *)
Theorem clone_removes_every_git_dir (clone_dir : list node) :
  tree_files (remove_git_dirs clone_dir)
  = List.filter (fun x => negb (existsb (String.eqb ".git") x.1)) (tree_files clone_dir)
  /\ tree_dirs (remove_git_dirs clone_dir)
     = List.filter (fun p => negb (existsb (String.eqb ".git") p)) (tree_dirs clone_dir).
Proof.
  rewrite remove_git_dirs_prune, tree_files_prune, tree_dirs_prune. split.
  - apply List.filter_ext. intros x. apply outside_git.
  - apply List.filter_ext. apply outside_git.
Qed.

(* ------------------------------------------------------------------ *)
(** ** Removing mex binaries *)

Lemma remove_mex_node_dir (d : string) (ch : list node) :
  remove_mex_node (Dir d ch) = Dir d (remove_mex_binaries ch).
Proof.
  simpl. f_equal. unfold remove_mex_binaries.
  induction ch as [|[s|e c] ch IH]; simpl; [done| |by rewrite IH].
  destruct (is_mex s); simpl; by rewrite IH.
Qed.
Arguments remove_mex_node : simpl never.

Lemma remove_mex_binaries_flat (ch : list node) :
  remove_mex_binaries ch = flat_map (fun c => remove_mex_binaries [c]) ch.
Proof. unfold remove_mex_binaries. apply flat_map_ext. intros c. cbn [flat_map]. by rewrite app_nil_r. Qed.

Lemma node_files_mex (n : node) :
  forall p, flat_map (node_files p) (remove_mex_binaries [n])
            = List.filter (fun x => negb (is_mex x.2)) (node_files p n).
Proof.
  induction n as [s|d ch IH] using node_ind'; intros p.
  - cbn [remove_mex_binaries flat_map node_files node_dirs List.filter snd app].
    by destruct (is_mex s).
  - cbn [remove_mex_binaries flat_map]. rewrite remove_mex_node_dir. cbn [app flat_map node_files].
    rewrite !app_nil_r, remove_mex_binaries_flat, flat_map_flat_map, filter_flat_map.
    apply flat_map_ext_Forall. eapply Forall_impl; [exact IH|]. intros c Hc. apply Hc.
Qed.

Lemma node_dirs_mex (n : node) :
  forall p, flat_map (node_dirs p) (remove_mex_binaries [n]) = node_dirs p n.
Proof.
  induction n as [s|d ch IH] using node_ind'; intros p.
  - cbn [remove_mex_binaries flat_map node_files node_dirs List.filter snd app].
    by destruct (is_mex s).
  - cbn [remove_mex_binaries flat_map]. rewrite remove_mex_node_dir. cbn [app flat_map node_dirs].
    rewrite !app_nil_r. f_equal.
    rewrite remove_mex_binaries_flat, flat_map_flat_map.
    apply flat_map_ext_Forall. eapply Forall_impl; [exact IH|]. intros c Hc. apply Hc.
Qed.

(** X: the mex-removal loop of PackagePreparer._prepare_package. Afterwards
    the regular files of the package directory are exactly those whose
    name does not end in one of the seven mex extensions, at every depth
    and in the same order, and every directory is still there. *)
Theorem prepare_removes_mex_binaries (mhl_dir : list node) :
  tree_files (remove_mex_binaries mhl_dir)
  = List.filter (fun x => negb (is_mex x.2)) (tree_files mhl_dir)
  /\ tree_dirs (remove_mex_binaries mhl_dir) = tree_dirs mhl_dir.
Proof.
  unfold tree_files, tree_dirs. rewrite remove_mex_binaries_flat, !flat_map_flat_map.
  rewrite filter_flat_map. split; apply flat_map_ext; intros c.
  - apply node_files_mex.
  - apply node_dirs_mex.
Qed.

(* ------------------------------------------------------------------ *)
(** ** add_all_subdirs *)

Lemma walk_node_dirs (n : node) : forall p, map fst (walk_node [] p n) = node_dirs p n.
Proof.
  induction n as [s|d ch IH] using node_ind'; intros p; [reflexivity|].
  cbn [walk_node node_dirs map fst]. f_equal.
  rewrite map_walk_nil, concat_map, map_map, flat_map_concat_map. f_equal.
  apply map_ext_in. intros c Hc. rewrite Forall_forall in IH. apply IH.
  by apply list_elem_of_In.
Qed.

Lemma all_subdirs_tree_dirs (ch : list node) :
  all_subdirs (Directory ch) = map join_path (tree_dirs ch).
Proof.
  unfold all_subdirs, walk. cbn [tail]. rewrite map_walk_nil.
  rewrite <- (map_map fst join_path). f_equal.
  rewrite concat_map, map_map. unfold tree_dirs. rewrite flat_map_concat_map. f_equal.
  apply map_ext. intros c. apply walk_node_dirs.
Qed.

(** X: create_load_and_unload_scripts with [add_all_subdirs=True]. Any
    [subdirs] argument, even an empty list, raises [ValueError]. Without
    it, the scripts are those for the list of every directory below the
    package directory at any depth, in [os.walk]'s top-down order, as
    relative paths; for a package directory that is missing or is a
    regular file that list is empty. *)
Theorem add_all_subdirs_outcomes :
  (forall (st : path_state) (pkg : string) (l : list string),
     create_load_and_unload_scripts st pkg (Some l) true = Raise ValueError)
  /\ (forall (ch : list node) (pkg : string),
        create_load_and_unload_scripts (Directory ch) pkg None true
        = Ok (load_script pkg (Some (map join_path (tree_dirs ch))),
              unload_script pkg (Some (map join_path (tree_dirs ch)))))
  /\ (forall (pkg : string),
        create_load_and_unload_scripts Missing pkg None true
        = Ok (load_script pkg (Some []), unload_script pkg (Some []))
        /\ create_load_and_unload_scripts RegularFile pkg None true
           = Ok (load_script pkg (Some []), unload_script pkg (Some []))).
Proof.
  split; [|split].
  - intros st pkg l. reflexivity.
  - intros ch pkg. unfold create_load_and_unload_scripts, mbind, result_bind.
    by rewrite all_subdirs_tree_dirs.
  - intros pkg. split; reflexivity.
Qed.

(* ------------------------------------------------------------------ *)
(** ** The load and unload scripts of prepare_packages *)

Lemma run_plines_add (paths : list string) :
  prepare_packages.run_plines true (map prepare_packages.PLAddpath paths ++ [prepare_packages.PLEnd])
  = Some (map PAdd paths).
Proof. induction paths as [|p paths IH]; simpl; [done|]. by rewrite IH. Qed.

Lemma run_plines_rm (paths : list string) :
  prepare_packages.run_plines true (map prepare_packages.PLRmpath paths ++ [prepare_packages.PLEnd])
  = Some (map PRm paths).
Proof. induction paths as [|p paths IH]; simpl; [done|]. by rewrite IH. Qed.

(** X: prepare_packages.create_load_and_unload_scripts. Running
    [load_package] adds every listed path, in the listed order; running
    [unload_package] removes the same paths in the same order, not in
    reverse (unlike the build helper's scripts). *)
Theorem prepare_scripts_same_order (paths : list string) :
  prepare_packages.run_plines false (prepare_packages.create_load_and_unload_scripts paths).1
  = Some (map PAdd paths)
  /\ prepare_packages.run_plines false (prepare_packages.create_load_and_unload_scripts paths).2
     = Some (map PRm paths).
Proof. split; cbn; [apply run_plines_add|apply run_plines_rm]. Qed.

(* ------------------------------------------------------------------ *)
(** ** Platform tags *)

Ltac destruct_ifs :=
  repeat match goal with
         | |- context [if ?b then _ else _] => destruct b
         end.

(** X: prepare_packages.get_current_platform_tag returns one of six
    tags, whatever the system and machine names: [linux_x86_64],
    [linux_aarch64], [macos_arm64], [macos_x86_64], [windows_x86_64] or
    [any] (a Linux machine that is neither x86-64 nor ARM64 included). *)
Theorem prepare_platform_tag_range (system machine : string) :
  In (prepare_packages.get_current_platform_tag system machine)
     ["linux_x86_64"; "linux_aarch64"; "macos_arm64"; "macos_x86_64"; "windows_x86_64"; "any"].
Proof. unfold prepare_packages.get_current_platform_tag. destruct_ifs; simpl; tauto. Qed.

(** X: the two platform-tag functions disagree on every macOS and every
    Windows machine: prepare_packages gives [macos_...] and
    [windows_x86_64], mip_build_helpers gives [macosx_...] and
    [win_...]/[win32]. On Linux they agree for the machine names
    [x86_64], [amd64], [aarch64] and [arm64] (in any letter case). *)
Theorem platform_tags_disagree_off_linux :
  (forall machine, prepare_packages.get_current_platform_tag "Darwin" machine
                   <> mip_build_helpers.get_current_platform_tag "Darwin" machine)
  /\ (forall machine, prepare_packages.get_current_platform_tag "Windows" machine
                      <> mip_build_helpers.get_current_platform_tag "Windows" machine)
  /\ (forall machine,
        In (prepare_packages.lower machine) ["x86_64"; "amd64"; "aarch64"; "arm64"] ->
        prepare_packages.get_current_platform_tag "Linux" machine
        = mip_build_helpers.get_current_platform_tag "Linux" machine).
Proof.
  split; [|split].
  - intros machine. unfold prepare_packages.get_current_platform_tag,
      mip_build_helpers.get_current_platform_tag. cbn -[prepare_packages.lower prepare_packages.contains].
    destruct_ifs; discriminate.
  - intros machine. unfold prepare_packages.get_current_platform_tag,
      mip_build_helpers.get_current_platform_tag. cbn -[prepare_packages.lower prepare_packages.contains].
    destruct_ifs; discriminate.
  - intros machine H. unfold prepare_packages.get_current_platform_tag,
      mip_build_helpers.get_current_platform_tag.
    destruct H as [H|[H|[H|[H|[]]]]]; rewrite <- H; reflexivity.
Qed.

(* ------------------------------------------------------------------ *)
(** ** setup.m *)

(** X: build_helpers.create_setup_m writes the statements of the load
    script of create_load_and_unload_scripts (same comments, variables and
    [addpath] calls, for the same [subdirs]), followed, only when
    [run_startup] is set, by the assignment of
    [fullfile(<package>_path, 'startup.m')] to [startup_file] and the
    block that runs it if it exists. *)
Theorem setup_m_is_load_script (package_name : string) (subdirs : option (list string))
    (run_startup : bool) :
  mip_build_helpers.create_setup_m package_name subdirs run_startup
  = (map mip_build_helpers.SetupStmt (load_script package_name subdirs)
     ++ (if run_startup then
           [mip_build_helpers.SetupStmt
              (SAssign "startup_file" (EFullfile (package_name ++ "_path") "startup.m"));
            mip_build_helpers.SetupRunIfExists "startup_file"]
         else []))%list.
Proof.
  unfold mip_build_helpers.create_setup_m, load_script.
  rewrite map_app. cbn [map app]. f_equal. f_equal. f_equal. f_equal.
  destruct (truthy subdirs); [|reflexivity].
  induction (subdir_list subdirs) as [|s l IH]; [reflexivity|]. cbn. by rewrite IH.
Qed.

(* ------------------------------------------------------------------ *)
(** ** The symbol collectors, further *)

Lemma chars_string_of_list (l : list ascii) : chars (string_of_list_ascii l) = l.
Proof. apply list_ascii_of_string_of_list_ascii. Qed.

Lemma startswith_firstn (s k : string) (n : nat) :
  startswith (string_of_list_ascii (firstn n (chars s))) k = true -> startswith s k = true.
Proof.
  unfold startswith. rewrite chars_string_of_list. intros H.
  apply bool_decide_eq_true_1 in H. apply bool_decide_eq_true_2.
  destruct (Nat.le_gt_cases (List.length (chars k)) n) as [Hle|Hgt].
  - rewrite firstn_firstn in H. by rewrite Nat.min_l in H.
  - exfalso. assert (Hl := length_firstn (List.length (chars k)) (firstn n (chars s))).
    rewrite H, length_firstn in Hl. lia.
Qed.

Lemma is_pkg_or_class_drop (s : string) (n : nat) :
  is_pkg_or_class (slice_drop_last n s) = true -> is_pkg_or_class s = true.
Proof.
  unfold slice_drop_last, is_pkg_or_class. destruct (n =? 0)%nat; [done|].
  intros H. apply orb_true_iff in H as [H|H]; apply orb_true_iff;
    [left|right]; eapply startswith_firstn; exact H.
Qed.

Lemma Forall_sort_by {A} (key : A -> string) (P : A -> Prop) (l : list A) :
  (forall x, In x l -> P x) -> Forall P (sort_by key l).
Proof.
  intros H. apply Forall_forall. intros x Hx. apply H.
  eapply Permutation_in; [apply sort_by_perm|]. by apply list_elem_of_In.
Qed.

(** X: the top-level collector and the extension-based collector with
    its default extension [.m]. They return the same list on every
    directory where no [.m] file starts with ['+'] or ['@'] and no ['+']
    or ['@'] directory ends in [.m], and on a missing path or a regular
    file; on a file [+a.m] they differ ([a] against [+a]). *)
Theorem top_level_agrees_with_extensions_default :
  (forall (items : list node) (base : string),
     (forall s, In (File s) items -> endswith s ".m" = true -> is_pkg_or_class s = false) ->
     (forall s c, In (Dir s c) items -> is_pkg_or_class s = true -> endswith s ".m" = false) ->
     collect_exposed_symbols_top_level (Directory items) base
     = collect_exposed_symbols_with_extensions (Directory items) None)
  /\ (forall base, collect_exposed_symbols_top_level Missing base
                   = collect_exposed_symbols_with_extensions Missing None
                   /\ collect_exposed_symbols_top_level RegularFile base
                      = collect_exposed_symbols_with_extensions RegularFile None)
  /\ collect_exposed_symbols_top_level (Directory [File "+a.m"]) "." = Ok ["a"]
  /\ collect_exposed_symbols_with_extensions (Directory [File "+a.m"]) None = Ok ["+a"].
Proof.
  split; [|split; [intros; split; reflexivity|split; reflexivity]].
  intros items base HF HD.
  unfold collect_exposed_symbols_top_level, collect_exposed_symbols_with_extensions. f_equal.
  apply flat_map_ext_Forall. apply Forall_sort_by. intros [s|s c] Hin.
  - cbn [List.find]. destruct (endswith s ".m") eqn:Em; [|reflexivity].
    specialize (HF s Hin Em). unfold _extract_symbol_name. rewrite Em. cbn [String.length].
    destruct (startswith (slice_drop_last 2 s) "+" || startswith (slice_drop_last 2 s) "@")
      eqn:Ep; [|reflexivity].
    exfalso. assert (is_pkg_or_class s = true) by (apply (is_pkg_or_class_drop s 2); exact Ep).
    congruence.
  - destruct (is_pkg_or_class s) eqn:Ep; [|reflexivity].
    specialize (HD s c Hin Ep). unfold _extract_symbol_name. rewrite HD.
    unfold is_pkg_or_class in Ep. by rewrite Ep.
Qed.

Lemma endswith_empty (s : string) : endswith s "" = true.
Proof.
  unfold endswith. cbn [chars list_ascii_of_string List.length].
  rewrite Nat.sub_0_r, skipn_all. reflexivity.
Qed.

(** X: the extension-based collector (build_helpers and
    prepare_packages.collect_exposed_symbols) with an extension list whose
    first entry is the empty string: every regular file matches it, and
    [item[:-0]] is the empty string, so each file contributes [""];
    directories contribute as usual. *)
Theorem empty_extension_gives_empty_symbols (items : list node) (exts : list string) :
  prepare_packages.collect_exposed_symbols (Directory items) ("" :: exts)
  = Ok (map (fun n => match n with File _ => "" | Dir s _ => slice_from1 s end)
            (List.filter (fun n => match n with File _ => true | Dir s _ => is_pkg_or_class s end)
                         (sort_by node_name items))).
Proof.
  unfold prepare_packages.collect_exposed_symbols, collect_exposed_symbols_with_extensions.
  f_equal. induction (sort_by node_name items) as [|[s|s c] l IH]; [reflexivity| |].
  - cbn [flat_map List.find List.filter map]. rewrite endswith_empty.
    change (slice_drop_last (String.length "") s) with "". cbn [app].
    f_equal. exact IH.
  - cbn [flat_map List.filter]. destruct (is_pkg_or_class s); cbn [app map]; [f_equal|]; exact IH.
Qed.

Lemma extend_top_level_raise (pairs : list (path_state * string)) (e : exc) :
  extend_top_level pairs = Raise e <-> e = NotADirectoryError /\ In RegularFile (map fst pairs).
Proof.
  induction pairs as [|[st b] rest IH]; cbn [extend_top_level map fst].
  - split; [discriminate|intros [_ []]].
  - destruct st as [| |ch]; cbn [collect_exposed_symbols_top_level].
    2: split; [intros H; inversion H; split; [reflexivity|left; reflexivity]|intros [-> _]; reflexivity].
    all: destruct (extend_top_level rest) as [r|e'] eqn:Er.
    all: split; [intros H|intros [He [H|H]]]; try discriminate.
    all: try (exfalso; assert (Ok r = Raise e) by (apply IH; auto); discriminate).
    all: try (inversion H; subst; destruct (proj1 IH eq_refl) as [? ?];
              split; [assumption|right; assumption]).
    all: try (apply IH; auto).
Qed.

Lemma map_fst_combine {A B} (l : list A) (l' : list B) :
  map fst (combine l l') = firstn (List.length l') l.
Proof.
  revert l'. induction l as [|x l IH]; intros [|y l']; simpl; try done.
  by rewrite IH.
Qed.

Lemma combine_firstn_length {A B} (l : list A) (l' : list B) :
  combine (firstn (List.length l') l) l' = combine l l'.
Proof.
  revert l'. induction l as [|x l IH]; intros [|y l']; simpl; try done.
  by rewrite IH.
Qed.

(** X: collect_exposed_symbols_multiple_paths raises exactly when one of
    the directories paired with a base path (by [zip]) is a regular file,
    and then the error is [NotADirectoryError]; directories beyond the
    length of [base_paths] are never read. *)
Theorem multiple_paths_errors (package_dirs : list path_state) (base_paths : list string) :
  (forall e, collect_exposed_symbols_multiple_paths package_dirs base_paths = Raise e
             <-> e = NotADirectoryError
                 /\ In RegularFile (firstn (List.length base_paths) package_dirs))
  /\ collect_exposed_symbols_multiple_paths package_dirs base_paths
     = collect_exposed_symbols_multiple_paths
         (firstn (List.length base_paths) package_dirs) base_paths.
Proof.
  split.
  - intros e. rewrite <- map_fst_combine, <- extend_top_level_raise.
    unfold collect_exposed_symbols_multiple_paths.
    destruct (extend_top_level _); split; congruence.
  - unfold collect_exposed_symbols_multiple_paths. by rewrite combine_firstn_length.
Qed.


(* ------------------------------------------------------------------ *)
(** ** The existence check on a successful response *)

Lemma compare_get_forallb (m pd : gmap string jvalue) (fields : list string) :
  compare_get m pd fields = Ok (forallb (fun f => py_eq (py_get m f) (py_get pd f)) fields).
Proof.
  induction fields as [|f rest IH]; [reflexivity|]. cbn [compare_get forallb].
  by destruct (py_eq (py_get m f) (py_get pd f)).
Qed.

Lemma compare_getattr_true (m pkg : gmap string jvalue) (fields : list string) :
  compare_getattr m pkg fields = Ok true
  <-> Forall (fun f => exists v, pkg !! f = Some v /\ py_eq (py_get m f) v = true) fields.
Proof.
  induction fields as [|f rest IH]; cbn [compare_getattr].
  - split; [constructor|reflexivity].
  - rewrite Forall_cons. destruct (pkg !! f) as [v|] eqn:Ef.
    + destruct (py_eq (py_get m f) v) eqn:Eq; cbn [negb].
      * rewrite IH. split; [intros H; split; [exists v; auto|exact H]|intros [_ H]; exact H].
      * split; [discriminate|]. intros [[v' [Hv' Heq]] _]. congruence.
    + split; [discriminate|]. intros [[v' [Hv' _]] _]. congruence.
Qed.

Lemma compare_getattr_raise (m pkg : gmap string jvalue) (fields : list string) (e : exc) :
  compare_getattr m pkg fields = Raise e -> e = AttributeError.
Proof.
  induction fields as [|f rest IH]; cbn [compare_getattr]; [discriminate|].
  destruct (pkg !! f); [|congruence]. by destruct (negb _).
Qed.

(** X: both existence checks once the probe answered with a status that
    is neither 404 nor an error status. A body that is not JSON gives
    [False] (requests' JSONDecodeError is a RequestException). A JSON
    body that is not an object makes [existing_metadata.get] raise
    [AttributeError], which neither check catches. On an object,
    PackagePreparer returns [True] exactly when every compared field is
    equal under [==], and never raises; PackageBuilder returns [True]
    exactly when the package has every compared attribute and each is
    equal, and the only error it can raise is [AttributeError]. *)
Theorem existence_check_on_success (st : Z) (Hst : st <> 404%Z)
    (Hok : raise_for_status st = false) (v : jvalue) (m pd pkg : gmap string jvalue) :
  PackagePreparer_check_existing_package (ProbeResponse st BodyNotJSON) pd = Ok false
  /\ PackageBuilder_check_existing_package (ProbeResponse st BodyNotJSON) pkg = Ok false
  /\ PackagePreparer_check_existing_package (ProbeResponse st (BodyJSON (DocOther v))) pd
     = Raise AttributeError
  /\ PackageBuilder_check_existing_package (ProbeResponse st (BodyJSON (DocOther v))) pkg
     = Raise AttributeError
  /\ PackagePreparer_check_existing_package (ProbeResponse st (BodyJSON (DocObject m))) pd
     = Ok (forallb (fun f => py_eq (py_get m f) (py_get pd f)) prepare_fields_to_compare)
  /\ (PackageBuilder_check_existing_package (ProbeResponse st (BodyJSON (DocObject m))) pkg
      = Ok true
      <-> Forall (fun f => exists x, pkg !! f = Some x /\ py_eq (py_get m f) x = true)
                 builder_fields_to_compare)
  /\ (forall e, PackageBuilder_check_existing_package
                  (ProbeResponse st (BodyJSON (DocObject m))) pkg = Raise e
                -> e = AttributeError).
Proof.
  apply Z.eqb_neq in Hst.
  unfold PackagePreparer_check_existing_package, PackageBuilder_check_existing_package,
    check_try_body.
  rewrite Hst, Hok. rewrite compare_get_forallb.
  split; [reflexivity|]. split; [reflexivity|]. split; [reflexivity|].
  split; [reflexivity|]. split; [reflexivity|]. split.
  - rewrite <- compare_getattr_true.
    destruct (compare_getattr m pkg builder_fields_to_compare) as [b|e] eqn:E; cbn [catch_request_exception].
    + reflexivity.
    + apply compare_getattr_raise in E. subst e. cbn. split; discriminate.
  - intros e. destruct (compare_getattr m pkg builder_fields_to_compare) as [b|e'] eqn:E;
      cbn [catch_request_exception]; [discriminate|].
    apply compare_getattr_raise in E. subst e'. cbn. intros H. by inversion H.
Qed.

Lemma existence_check_on_success_witness :
  200%Z <> 404%Z /\ raise_for_status 200 = false
  /\ PackagePreparer_check_existing_package (ProbeResponse 200 BodyNotJSON) ∅ = Ok false
  /\ PackageBuilder_check_existing_package (ProbeResponse 200 BodyNotJSON) ∅ = Ok false
  /\ PackagePreparer_check_existing_package (ProbeResponse 200 (BodyJSON (DocOther (JList []))))
       ∅ = Raise AttributeError
  /\ PackageBuilder_check_existing_package (ProbeResponse 200 (BodyJSON (DocOther (JList []))))
       ∅ = Raise AttributeError
  /\ PackagePreparer_check_existing_package (ProbeResponse 200 (BodyJSON (DocObject ∅))) ∅
     = Ok (forallb (fun f => py_eq (py_get ∅ f) (py_get ∅ f)) prepare_fields_to_compare)
  /\ (PackageBuilder_check_existing_package (ProbeResponse 200 (BodyJSON (DocObject ∅))) ∅
      = Ok true
      <-> Forall (fun f => exists x, (∅ : gmap string jvalue) !! f = Some x
                                     /\ py_eq (py_get ∅ f) x = true)
                 builder_fields_to_compare)
  /\ (forall e, PackageBuilder_check_existing_package
                  (ProbeResponse 200 (BodyJSON (DocObject ∅))) ∅ = Raise e
                -> e = AttributeError).
Proof.
  split; [discriminate|]. split; [reflexivity|].
  apply (existence_check_on_success 200 ltac:(discriminate) eq_refl (JList []) ∅ ∅ ∅).
Defined.

(* ------------------------------------------------------------------ *)
(** ** Package file names from preparation to the index *)

Lemma chars_length (s : string) : List.length (chars s) = String.length s.
Proof. unfold chars. induction s as [|c s IH]; simpl; [done|]. by rewrite IH. Qed.

Lemma chars_inj (a b : string) : chars a = chars b -> a = b.
Proof.
  intros H. rewrite <- (string_of_list_ascii_of_string a), <- (string_of_list_ascii_of_string b).
  unfold chars in H. by rewrite H.
Qed.

Lemma string_append_assoc (a b c : string) : ((a ++ b) ++ c)%string = (a ++ (b ++ c))%string.
Proof. apply chars_inj. rewrite !chars_append. symmetry. apply app_assoc. Qed.

Lemma endswith_app (t suf : string) : endswith (t ++ suf) suf = true.
Proof.
  unfold endswith. rewrite chars_append, length_app.
  replace (List.length (chars t) + List.length (chars suf) - List.length (chars suf))%nat
    with (List.length (chars t)) by lia.
  rewrite drop_app_length, bool_decide_eq_true_2; [|done].
  apply andb_true_intro; split; [apply Nat.leb_le; lia|done].
Qed.

Lemma slice_drop_last_app (t suf : string) (H : suf <> ""%string) :
  slice_drop_last (String.length suf) (t ++ suf) = t.
Proof.
  unfold slice_drop_last.
  assert (Hn : (String.length suf =? 0)%nat = false) by (destruct suf; [done|reflexivity]).
  rewrite Hn, chars_append, length_app, <- (chars_length suf).
  replace (List.length (chars t) + List.length (chars suf)
           - List.length (chars suf))%nat with (List.length (chars t)) by lia.
  rewrite take_app_length. apply string_of_list_ascii_of_string.
Qed.

Lemma endswith_split (s suf : string) (Hne : suf <> ""%string) :
  endswith s suf = true -> s = (slice_drop_last (String.length suf) s ++ suf)%string.
Proof.
  unfold endswith. intros H. apply andb_true_iff in H as [Hle Hsk].
  apply Nat.leb_le in Hle. apply bool_decide_eq_true_1 in Hsk.
  unfold slice_drop_last.
  assert (Hn : (String.length suf =? 0)%nat = false) by (destruct suf; [done|reflexivity]).
  rewrite Hn, <- (chars_length suf).
  apply chars_inj. rewrite chars_append, chars_string_of_list.
  rewrite <- Hsk at 2. symmetry. apply firstn_skipn.
Qed.

Lemma endswith_append_eq (x u suf : string) :
  (String.length suf <= String.length u)%nat -> endswith (x ++ u) suf = endswith u suf.
Proof.
  intros Hl. rewrite <- !chars_length in Hl. unfold endswith.
  rewrite chars_append, length_app.
  replace (List.length (chars x) + List.length (chars u) - List.length (chars suf))%nat
    with (List.length (chars x) + (List.length (chars u) - List.length (chars suf)))%nat by lia.
  rewrite skipn_app, skipn_all2 by lia. cbn [app].
  replace (List.length (chars x) + (List.length (chars u) - List.length (chars suf))
           - List.length (chars x))%nat
    with (List.length (chars u) - List.length (chars suf))%nat by lia.
  replace (List.length (chars suf) <=? List.length (chars x) + List.length (chars u))%nat
    with true by (symmetry; apply Nat.leb_le; lia).
  replace (List.length (chars suf) <=? List.length (chars u))%nat
    with true by (symmetry; apply Nat.leb_le; lia).
  reflexivity.
Qed.

Lemma endswith_append_l (x u suf : string) :
  endswith u suf = true -> endswith (x ++ u) suf = true.
Proof.
  intros H. rewrite endswith_append_eq; [exact H|].
  unfold endswith in H. apply andb_true_iff in H as [H _]. apply Nat.leb_le in H.
  by rewrite <- !chars_length.
Qed.

Lemma endswith_chars (s suf : string) :
  endswith s suf = true -> exists p, chars s = (p ++ chars suf)%list.
Proof.
  unfold endswith. intros H. apply andb_true_iff in H as [_ H].
  apply bool_decide_eq_true_1 in H. eexists. rewrite <- H. symmetry. apply firstn_skipn.
Qed.

(** X: the [.mhl] file names. PackagePreparer._get_mhl_filename and
    PackageBuilder._get_mhl_filename return a name ending in [.mhl]
    whenever they return; otherwise they raise, [KeyError] for the first
    (a missing key of the package data or of the build entry) and
    [AttributeError] for the second (a missing attribute). *)
Theorem mhl_filename_outcomes (py_str : jvalue -> string) (pd build pkg : gmap string jvalue) :
  (forall s, PackagePreparer_get_mhl_filename py_str pd build = Ok s -> endswith s ".mhl" = true)
  /\ (forall e, PackagePreparer_get_mhl_filename py_str pd build = Raise e ->
        e = KeyError
        /\ (pd !! "name" = None \/ pd !! "version" = None \/ build !! "matlab_tag" = None
            \/ build !! "abi_tag" = None \/ build !! "platform_tag" = None))
  /\ (forall s, PackageBuilder_get_mhl_filename py_str pkg = Ok s -> endswith s ".mhl" = true)
  /\ (forall e, PackageBuilder_get_mhl_filename py_str pkg = Raise e ->
        e = AttributeError
        /\ (pkg !! "name" = None \/ pkg !! "version" = None \/ pkg !! "matlab_tag" = None
            \/ pkg !! "abi_tag" = None \/ pkg !! "platform_tag" = None)).
Proof.
  unfold PackagePreparer_get_mhl_filename, PackageBuilder_get_mhl_filename, py_index, py_getattr,
    mbind, result_bind, mret, result_ret.
  split; [|split; [|split]].
  1, 3: intros s H;
    repeat match type of H with
      | context [match ?d !! ?k with _ => _ end] => destruct (d !! k); [|discriminate]
      end;
    inversion H; subst s; repeat apply endswith_append_l; reflexivity.
  all: intros e H;
    repeat match type of H with
      | context [match ?d !! ?k with _ => _ end] =>
          let E := fresh "E" in destruct (d !! k) eqn:E; [|inversion H; subst e; split; [reflexivity|tauto]]
      end; discriminate.
Qed.

(** X: the name of the prepared directory and the bundler. For a file
    name [mhl] ending in [.mhl], prepare_package_dir writes the package to
    [mhl[:-4] + ".dir"]; bundle_and_upload_package, given that directory
    (not in a dry run, with a readable mip.json, and with the archive
    built and both uploads succeeding), recovers the same [mhl], returns
    [True] and uploads [core/packages/<mhl>] as application/zip and then
    [core/packages/<mhl>.mip.json] as application/json. *)
Theorem prepared_dir_bundles_under_mhl_name (mhl temp_dir : string)
    (Hmhl : endswith mhl ".mhl" = true) (m : gmap string jvalue) :
  endswith (PackagePreparer_output_dir_name mhl) ".dir" = true
  /\ (slice_drop_last 4 (PackagePreparer_output_dir_name mhl) ++ ".mhl")%string = mhl
  /\ PackageBundler_bundle_and_upload_package false (PackagePreparer_output_dir_name mhl)
       (MipJsonRead m) temp_dir true (fun _ => true)
     = (true, [(PackageBundler_bucket_prefix ++ "/" ++ mhl, "application/zip");
               (PackageBundler_bucket_prefix ++ "/" ++ mhl ++ ".mip.json", "application/json")]).
Proof.
  assert (Hrec : (slice_drop_last 4 (PackagePreparer_output_dir_name mhl) ++ ".mhl")%string = mhl).
  { unfold PackagePreparer_output_dir_name.
    change 4%nat with (String.length ".dir") at 1. rewrite slice_drop_last_app by discriminate.
    symmetry. exact (endswith_split mhl ".mhl" ltac:(discriminate) Hmhl). }
  assert (Hdir : endswith (PackagePreparer_output_dir_name mhl) ".dir" = true)
    by apply endswith_app.
  split; [exact Hdir|]. split; [exact Hrec|].
  unfold PackageBundler_bundle_and_upload_package. rewrite Hdir, Hrec. cbn [negb].
  unfold PackageBundler_get_content_type.
  rewrite (endswith_append_l temp_dir ("/" ++ mhl) ".mhl")
    by (apply endswith_append_l; exact Hmhl).
  rewrite (endswith_append_eq temp_dir ("/" ++ mhl ++ ".mip.json") ".mhl")
    by (rewrite !string_length_append; cbn; lia).
  rewrite (endswith_append_eq "/" (mhl ++ ".mip.json") ".mhl")
    by (rewrite !string_length_append; cbn; lia).
  rewrite (endswith_append_eq mhl ".mip.json" ".mhl") by (cbn; lia).
  rewrite (endswith_append_l temp_dir ("/" ++ mhl ++ ".mip.json") ".json")
    by (apply endswith_append_l, endswith_append_l; reflexivity).
  reflexivity.
Qed.

Lemma prepared_dir_bundles_under_mhl_name_witness :
  endswith "a.mhl" ".mhl" = true
  /\ endswith (PackagePreparer_output_dir_name "a.mhl") ".dir" = true
  /\ (slice_drop_last 4 (PackagePreparer_output_dir_name "a.mhl") ++ ".mhl")%string = "a.mhl"
  /\ PackageBundler_bundle_and_upload_package false (PackagePreparer_output_dir_name "a.mhl")
       (MipJsonRead ∅) "/tmp" true (fun _ => true)
     = (true, [(PackageBundler_bucket_prefix ++ "/" ++ "a.mhl", "application/zip");
               (PackageBundler_bucket_prefix ++ "/" ++ "a.mhl" ++ ".mip.json", "application/json")]).
Proof.
  split; [reflexivity|].
  apply (prepared_dir_bundles_under_mhl_name "a.mhl" "/tmp"); reflexivity.
Defined.

(** X: what bundle_and_upload_package can return. [True] with no upload
    only when the directory is not a [.dir] directory or in a dry run
    after mip.json was read; [True] with exactly two uploads, the archive
    as application/zip and then its [.mip.json] as application/json
    under the same name; [False] after at most one upload. *)
Theorem bundle_outcomes (dry_run : bool) (dir_name : string) (mip_json : mip_json_file)
    (temp_dir : string) (mhl_ok : bool) (upload_ok : string -> bool) :
  match PackageBundler_bundle_and_upload_package dry_run dir_name mip_json temp_dir mhl_ok upload_ok
  with
  | (true, []) => endswith dir_name ".dir" = false
                  \/ (dry_run = true /\ exists m, mip_json = MipJsonRead m)
  | (true, [(k1, c1); (k2, c2)]) =>
      dry_run = false /\ mhl_ok = true /\ c1 = "application/zip" /\ c2 = "application/json"
      /\ k1 = (PackageBundler_bucket_prefix ++ "/" ++ (slice_drop_last 4 dir_name ++ ".mhl"))%string
      /\ k2 = (PackageBundler_bucket_prefix ++ "/" ++ (slice_drop_last 4 dir_name ++ ".mhl")
               ++ ".mip.json")%string
  | (false, ups) => (List.length ups <= 1)%nat
  | _ => False
  end.
Proof.
  unfold PackageBundler_bundle_and_upload_package.
  destruct (endswith dir_name ".dir") eqn:Ed; cbn [negb]; [|by left].
  destruct mip_json as [| |m]; [cbn; lia|cbn; lia|].
  destruct dry_run; [right; split; [done|by exists m]|].
  destruct mhl_ok; cbn [negb]; [|cbn; lia].
  set (mhl := (slice_drop_last 4 dir_name ++ ".mhl")%string).
  destruct (upload_ok (PackageBundler_bucket_prefix ++ "/" ++ mhl)); cbn [negb]; [|cbn; lia].
  destruct (upload_ok (PackageBundler_bucket_prefix ++ "/" ++ mhl ++ ".mip.json"));
    cbn [negb]; [|cbn; lia].
  unfold PackageBundler_get_content_type.
  assert (Hm : endswith mhl ".mhl" = true) by apply endswith_app.
  rewrite (endswith_append_l temp_dir ("/" ++ mhl) ".mhl")
    by (apply endswith_append_l; exact Hm).
  rewrite (endswith_append_eq temp_dir ("/" ++ mhl ++ ".mip.json") ".mhl")
    by (rewrite !string_length_append; cbn; lia).
  rewrite (endswith_append_eq "/" (mhl ++ ".mip.json") ".mhl")
    by (rewrite !string_length_append; cbn; lia).
  rewrite (endswith_append_eq mhl ".mip.json" ".mhl") by (cbn; lia).
  rewrite (endswith_append_l temp_dir ("/" ++ mhl ++ ".mip.json") ".json")
    by (apply endswith_append_l, endswith_append_l; reflexivity).
  repeat split.
Qed.

(* ------------------------------------------------------------------ *)
(** ** The index assembler *)

Lemma last_segment_no_slash (l cur : list ascii) :
  ~ In "/"%char l -> last_segment l cur = (cur ++ l)%list.
Proof.
  revert cur. induction l as [|c l IH]; intros cur Hl; cbn [last_segment].
  - by rewrite app_nil_r.
  - destruct (Ascii.eqb_spec c "/"%char) as [->|Hc]; [exfalso; apply Hl; left; done|].
    rewrite IH; [by rewrite <- app_assoc|]. intros H. apply Hl. by right.
Qed.

Lemma last_segment_after_slash (l1 l2 cur : list ascii) :
  last_segment (l1 ++ "/"%char :: l2) cur = last_segment l2 [].
Proof.
  revert cur. induction l1 as [|c l1 IH]; intros cur; cbn [last_segment app].
  - reflexivity.
  - destruct (Ascii.eqb c "/"%char); apply IH.
Qed.

Lemma basename_manifest_key (mhl : string) (Hslash : ~ In "/"%char (chars mhl)) :
  basename (PackageBundler_bucket_prefix ++ "/" ++ mhl ++ ".mip.json") = (mhl ++ ".mip.json")%string.
Proof.
  unfold basename. rewrite chars_append.
  change (chars ("/" ++ mhl ++ ".mip.json")) with ("/"%char :: chars (mhl ++ ".mip.json")).
  rewrite last_segment_after_slash, last_segment_no_slash.
  - cbn [app]. apply string_of_list_ascii_of_string.
  - rewrite chars_append. intros H. apply in_app_or in H as [H|H]; [done|].
    cbn in H. repeat (destruct H as [H|H]; [discriminate|]). done.
Qed.

(** X: IndexAssembler._download_mip_json never changes an entry other
    than [mhl_url] and [mip_json_url], and keeps both of these when the
    manifest has them. *)
Theorem download_mip_json_keeps_entries (key : string) (m : gmap string jvalue) :
  (forall k, k <> "mhl_url" -> k <> "mip_json_url" ->
     IndexAssembler_download_mip_json key m !! k = m !! k)
  /\ (forall v, m !! "mhl_url" = Some v -> IndexAssembler_download_mip_json key m !! "mhl_url" = Some v)
  /\ (forall v, m !! "mip_json_url" = Some v ->
        IndexAssembler_download_mip_json key m !! "mip_json_url" = Some v)
  /\ is_Some (IndexAssembler_download_mip_json key m !! "mhl_url")
  /\ is_Some (IndexAssembler_download_mip_json key m !! "mip_json_url").
Proof.
  unfold IndexAssembler_download_mip_json.
  destruct (m !! "mhl_url") as [u|] eqn:Eu;
    [set (m1 := m)|set (m1 := <["mhl_url" := _]> m)];
    destruct (m1 !! "mip_json_url") as [j|] eqn:Ej; subst m1.
  all: repeat split.
  all: repeat (intros ?); subst.
  all: repeat (rewrite lookup_insert_ne; [|congruence]).
  all: try rewrite lookup_insert_eq.
  all: try (eexists; eassumption); try (eexists; reflexivity); try assumption; try congruence.
  all: try (rewrite lookup_insert_ne in Ej; [|congruence]; congruence).
  rewrite lookup_insert_ne in Ej; [|congruence]. eexists; exact Ej.
Qed.

(** X: from the bundler's upload to the index. The manifest of an
    archive [mhl] (ending in [.mhl], with no ['/']) is uploaded under
    [core/packages/<mhl>.mip.json]; _list_mip_json_files keeps that key
    and drops the archive's own key. For a manifest written by
    PackagePreparer._create_mip_json with the same [mhl],
    _download_mip_json keeps its [mhl_url], the bucket URL of the
    archive, and adds as [mip_json_url] the URL that
    _check_existing_package probes. *)
Theorem index_urls_match_uploads (mhl : string) (Hmhl : endswith mhl ".mhl" = true)
    (Hslash : ~ In "/"%char (chars mhl)) (yaml build : gmap string jvalue)
    (syms : list string) (ts : string) (dur : jvalue) (j : gmap string jvalue)
    (Hj : PackagePreparer_create_mip_json yaml build syms ts dur mhl = Ok j) :
  IndexAssembler_list_mip_json_files
    [PackageBundler_bucket_prefix ++ "/" ++ mhl;
     PackageBundler_bucket_prefix ++ "/" ++ mhl ++ ".mip.json"]
  = [(PackageBundler_bucket_prefix ++ "/" ++ mhl ++ ".mip.json")%string]
  /\ IndexAssembler_download_mip_json (PackageBundler_bucket_prefix ++ "/" ++ mhl ++ ".mip.json") j
       !! "mhl_url" = Some (JStr (PackagePreparer_base_url ++ "/" ++ mhl))
  /\ IndexAssembler_download_mip_json (PackageBundler_bucket_prefix ++ "/" ++ mhl ++ ".mip.json") j
       !! "mip_json_url" = Some (JStr (PackagePreparer_mip_json_url mhl)).
Proof.
  assert (Hsplit := endswith_split mhl ".mhl" ltac:(discriminate) Hmhl).
  set (t := slice_drop_last (String.length ".mhl") mhl) in Hsplit.
  assert (Hj' : j !! "mhl_url" = Some (JStr (PackagePreparer_base_url ++ "/" ++ mhl))
                /\ j !! "mip_json_url" = None).
  { revert Hj. unfold PackagePreparer_create_mip_json, py_index, mbind, result_bind, mret, result_ret.
    repeat match goal with
      | |- context [match ?d !! ?k with _ => _ end] => destruct (d !! k); [|discriminate]
      end.
    intros H. inversion H. split; reflexivity. }
  destruct Hj' as [Hu Hm]. split; [|split].
  - assert (H1 : endswith (PackageBundler_bucket_prefix ++ "/" ++ mhl ++ ".mip.json")
                          ".mhl.mip.json" = true).
    { rewrite Hsplit, string_append_assoc.
      apply endswith_append_l, endswith_append_l, endswith_append_l. reflexivity. }
    assert (H2 : endswith (PackageBundler_bucket_prefix ++ "/" ++ mhl) ".mhl.mip.json" = false).
    { apply not_true_iff_false. intros H.
      apply endswith_chars in H as [p Hp]. rewrite Hsplit, !chars_append in Hp.
      apply (f_equal (@rev ascii)) in Hp. rewrite !rev_app_distr in Hp. cbn in Hp. discriminate. }
    unfold IndexAssembler_list_mip_json_files. cbn [List.filter]. rewrite H1, H2. reflexivity.
  - unfold IndexAssembler_download_mip_json. rewrite Hu.
    rewrite Hm. rewrite lookup_insert_ne by discriminate. exact Hu.
  - unfold IndexAssembler_download_mip_json. rewrite Hu, Hm, lookup_insert_eq.
    rewrite basename_manifest_key by exact Hslash.
    change 9%nat with (String.length ".mip.json").
    rewrite slice_drop_last_app by discriminate. reflexivity.
Qed.

Lemma index_urls_match_uploads_witness :
  endswith "a.mhl" ".mhl" = true
  /\ ~ In "/"%char (chars "a.mhl")
  /\ exists j,
       PackagePreparer_create_mip_json
         (list_to_map [("name", JStr "a"); ("description", JStr "d");
                       ("version", JStr "1"); ("release_number", JInt 1)])
         (list_to_map [("matlab_tag", JStr "any"); ("abi_tag", JStr "none");
                       ("platform_tag", JStr "any")])
         [] "t" JNull "a.mhl" = Ok j
       /\ IndexAssembler_list_mip_json_files
            [PackageBundler_bucket_prefix ++ "/" ++ "a.mhl";
             PackageBundler_bucket_prefix ++ "/" ++ "a.mhl" ++ ".mip.json"]
          = [(PackageBundler_bucket_prefix ++ "/" ++ "a.mhl" ++ ".mip.json")%string]
       /\ IndexAssembler_download_mip_json
            (PackageBundler_bucket_prefix ++ "/" ++ "a.mhl" ++ ".mip.json") j
            !! "mhl_url" = Some (JStr (PackagePreparer_base_url ++ "/" ++ "a.mhl"))
       /\ IndexAssembler_download_mip_json
            (PackageBundler_bucket_prefix ++ "/" ++ "a.mhl" ++ ".mip.json") j
            !! "mip_json_url" = Some (JStr (PackagePreparer_mip_json_url "a.mhl")).
Proof.
  assert (Hs : ~ In "/"%char (chars "a.mhl")).
  { cbn. intros H. repeat (destruct H as [H|H]; [discriminate|]). exact H. }
  split; [reflexivity|]. split; [exact Hs|].
  match goal with
  | |- context [PackagePreparer_create_mip_json ?a ?b ?c ?d ?e ?f] =>
      destruct (PackagePreparer_create_mip_json a b c d e f) as [j|e'] eqn:E;
        [|vm_compute in E; discriminate]
  end.
  exists j. split; [reflexivity|].
  exact (index_urls_match_uploads "a.mhl" eq_refl Hs _ _ _ _ _ j E).
Defined.

Lemma substring0_length (m : nat) (s : string) :
  (m <= String.length s)%nat -> String.length (substring 0 m s) = m.
Proof.
  revert m. induction s as [|c s IH]; intros m Hm.
  - cbn in Hm. assert (m = 0%nat) by lia. subst m. reflexivity.
  - destruct m as [|m]; [reflexivity|]. cbn in *. f_equal. apply IH. lia.
Qed.

Lemma string_append_nil_r (s : string) : (s ++ "")%string = s.
Proof. apply chars_inj. by rewrite chars_append, app_nil_r. Qed.

Lemma concat_empty_cons (x : string) (l : list string) :
  String.concat "" (x :: l) = (x ++ String.concat "" l)%string.
Proof. destruct l; cbn [String.concat]; [by rewrite string_append_nil_r|reflexivity]. Qed.

Definition html_special (c : ascii) : bool :=
  existsb (Nat.eqb (nat_of_ascii c)) [38; 60; 62; 34; 39]%nat.

Lemma html_escape_plain (s : string) :
  forallb (fun c => negb (html_special c)) (chars s) = true -> html_escape s = s.
Proof.
  unfold html_escape. induction s as [|c s IH]; [reflexivity|].
  change (chars (String c s)) with (c :: chars s). cbn [forallb map].
  intros H. apply andb_true_iff in H as [Hc Hs].
  rewrite concat_empty_cons, IH by exact Hs.
  unfold html_special in Hc. unfold html_escape_char.
  destruct (nat_of_ascii c =? 38)%nat eqn:E1; [cbn in Hc; by rewrite E1 in Hc|].
  destruct (nat_of_ascii c =? 60)%nat eqn:E2; [cbn in Hc; by rewrite E1, E2 in Hc|].
  destruct (nat_of_ascii c =? 62)%nat eqn:E3; [cbn in Hc; by rewrite E1, E2, E3 in Hc|].
  destruct (nat_of_ascii c =? 34)%nat eqn:E4; [cbn in Hc; by rewrite E1, E2, E3, E4 in Hc|].
  destruct (nat_of_ascii c =? 39)%nat eqn:E5; [cbn in Hc; by rewrite E1, E2, E3, E4, E5 in Hc|].
  reflexivity.
Qed.

(** X: the description cell of IndexAssembler._generate_index_html. The
    cell is at most 80 characters long: a longer escaped description is
    cut to its first 77 characters followed by [...]. A description of
    at most 80 characters without any of the five characters [html.escape]
    replaces is shown unchanged, and a package with no description shows
    an empty cell. A description that is not a string raises
    [AttributeError]. *)
Theorem description_cell_bounds (pkg : gmap string jvalue) :
  (forall s, IndexAssembler_description_cell pkg = Ok s -> (String.length s <= 80)%nat)
  /\ (forall d, pkg !! "description" = Some (JStr d)
        -> forallb (fun c => negb (html_special c)) (chars d) = true
        -> (String.length d <= 80)%nat
        -> IndexAssembler_description_cell pkg = Ok d)
  /\ (pkg !! "description" = None -> IndexAssembler_description_cell pkg = Ok "")
  /\ (forall e, IndexAssembler_description_cell pkg = Raise e
        -> e = AttributeError
           /\ exists v, pkg !! "description" = Some v /\ forall d, v <> JStr d).
Proof.
  unfold IndexAssembler_description_cell, py_get_default, mret, result_ret.
  split; [|split; [|split]].
  - intros s H. destruct (pkg !! "description") as [v|]; cbn [default id] in H;
      [|injection H as <-; cbn; lia].
    destruct v as [| | |d|]; try discriminate.
    destruct (80 <? String.length (html_escape d))%nat eqn:E; injection H as <-.
    + apply Nat.ltb_lt in E. rewrite string_length_append, substring0_length by lia. cbn. lia.
    + apply Nat.ltb_ge in E. exact E.
  - intros d Hd Hplain Hlen. rewrite Hd. cbn [default id].
    rewrite html_escape_plain by exact Hplain.
    replace (80 <? String.length d)%nat with false by (symmetry; apply Nat.ltb_ge; exact Hlen).
    reflexivity.
  - intros Hn. rewrite Hn. reflexivity.
  - intros e. destruct (pkg !! "description") as [v|]; cbn [default id]; [|discriminate].
    destruct v as [|b|z|d|l]; try (destruct (80 <? _)%nat; discriminate);
      intros H; inversion H; (split; [reflexivity|]); eexists; (split; [reflexivity|]);
      intros d' ?; discriminate.
Qed.

(* ------------------------------------------------------------------ *)
(** ** The architecture filter of the package tester *)

Lemma download_mip_json_other (key k : string) (m : gmap string jvalue) :
  k <> "mhl_url" -> k <> "mip_json_url" ->
  IndexAssembler_download_mip_json key m !! k = m !! k.
Proof.
  intros H1 H2. unfold IndexAssembler_download_mip_json.
  destruct (m !! "mhl_url"); [|set (m1 := <["mhl_url" := _]> m)];
    [destruct (m !! "mip_json_url")|destruct (m1 !! "mip_json_url"); subst m1].
  all: repeat (rewrite lookup_insert_ne; [|congruence]); reflexivity.
Qed.

(** X: no manifest writer emits an [architecture] entry, and the index
    assembler only adds the two URLs, so every package in the index
    reaches the tester without one; filter_packages_by_architecture then
    reads [pkg.get('architecture', 'any')] as ['any'] and keeps every
    package for every target architecture, whatever its platform_tag. *)
Theorem tester_keeps_every_written_manifest :
  (forall architecture packages,
     (forall p, In p packages -> p !! "architecture" = None) ->
     PackageTester_filter_packages_by_architecture architecture packages = packages)
  /\ (forall yaml build syms ts dur mhl key j,
        PackagePreparer_create_mip_json yaml build syms ts dur mhl = Ok j ->
        IndexAssembler_download_mip_json key j !! "architecture" = None)
  /\ (forall package ts dur key j,
        PackageBuilder_create_mip_json package ts dur = Ok j ->
        IndexAssembler_download_mip_json key j !! "architecture" = None).
Proof.
  split; [|split].
  - intros architecture packages H. unfold PackageTester_filter_packages_by_architecture.
    induction packages as [|p rest IH]; [reflexivity|]. cbn [List.filter].
    unfold py_get_default. rewrite (H p) by (by left). cbn [default id py_eq].
    rewrite orb_true_r. f_equal. apply IH. intros q Hq. apply H. by right.
  - intros yaml build syms ts dur mhl key j.
    unfold PackagePreparer_create_mip_json, py_index, mbind, result_bind, mret, result_ret.
    repeat match goal with
      | |- context [match ?d !! ?k with _ => _ end] => destruct (d !! k); [|discriminate]
      end.
    intros H. injection H as <-. rewrite download_mip_json_other by discriminate. reflexivity.
  - intros package ts dur key j.
    unfold PackageBuilder_create_mip_json, py_getattr, mbind, result_bind, mret, result_ret.
    repeat match goal with
      | |- context [match ?d !! ?k with _ => _ end] => destruct (d !! k); [|discriminate]
      end.
    intros H. injection H as <-. rewrite download_mip_json_other by discriminate. reflexivity.
Qed.

(* ------------------------------------------------------------------ *)
(** ** The path list of _prepare_package *)

Lemma generate_recursive_paths_shape (st : path_state) (b : string) (excl : list string)
    (p : string) :
  In p (prepare_packages.generate_recursive_paths st b excl) -> exists rel, p = join_path (b :: rel).
Proof.
  destruct st as [| |ch]; [done|done|].
  rewrite generate_recursive_paths_files, in_sorted.
  intros H. apply in_flat_map in H as [x [_ Hpx]].
  destruct (existsb _ _); [|done]. destruct Hpx as [<-|[]]. by exists x.1.
Qed.

Lemma basename_after_slash (w y : string) (Hy : ~ In "/"%char (chars y)) :
  basename (w ++ "/" ++ y) = y.
Proof.
  unfold basename. rewrite chars_append.
  change (chars ("/" ++ y)) with ("/"%char :: chars y).
  rewrite last_segment_after_slash, last_segment_no_slash by exact Hy.
  apply string_of_list_ascii_of_string.
Qed.

Lemma os_path_join_after_slash (a x y : string) :
  exists w, os_path_join a (x ++ "/" ++ y) = (w ++ "/" ++ y)%string.
Proof.
  unfold os_path_join. destruct (startswith _ "/"); [by exists x|].
  destruct (String.eqb a "" || endswith a "/").
  - exists (a ++ x)%string. by rewrite string_append_assoc.
  - exists (a ++ "/" ++ x)%string. by rewrite !string_append_assoc.
Qed.

(** X: a recursive [addpaths] entry whose [path] has several components,
    [x/y]: generate_recursive_paths is called on [os.path.join(mhl_dir,
    x/y)] and returns paths relative to its parent, so every path it
    contributes is [y] or starts with [y/]; the prefix [x/] is lost, and
    the load script adds [pkg_dir/y/...] instead of [pkg_dir/x/y/...]. *)
Theorem recursive_addpath_relative_to_parent (lookup : string -> path_state)
    (mhl_dir x y : string) (exclude : list string)
    (Hy : ~ In "/"%char (chars y)) (Hne : y <> "") (Hdot : y <> "." /\ y <> "..") :
  match PackagePreparer_compute_all_paths lookup mhl_dir
          [PathDict (Some (x ++ "/" ++ y)) true exclude] with
  | Ok ps => forall q, In q ps -> exists rel, q = join_path (y :: rel)
  | Raise _ => False
  end.
Proof.
  cbn [PackagePreparer_compute_all_paths]. unfold mbind, result_bind, mret, result_ret.
  rewrite app_nil_r. intros q Hq.
  apply generate_recursive_paths_shape in Hq as [rel ->].
  destruct (os_path_join_after_slash mhl_dir x y) as [w ->].
  rewrite basename_after_slash by exact Hy. by exists rel.
Qed.

Lemma recursive_addpath_relative_to_parent_witness :
  ~ In "/"%char (chars "b") /\ "b" <> "" /\ ("b" <> "." /\ "b" <> "..")
  /\ match PackagePreparer_compute_all_paths (fun _ => Directory [File "f.m"; Dir "c" [File "g.m"]]) "m"
             [PathDict (Some ("a" ++ "/" ++ "b")) true []] with
     | Ok ps => forall q, In q ps -> exists rel, q = join_path ("b" :: rel)
     | Raise _ => False
     end.
Proof.
  assert (Hy : ~ In "/"%char (chars "b")) by (cbn; intros [H|[]]; discriminate).
  split; [exact Hy|]. split; [discriminate|]. split; [split; discriminate|].
  apply (recursive_addpath_relative_to_parent _ "m" "a" "b" [] Hy);
    [discriminate|split; discriminate].
Defined.
